(** * A product catalogue: validation, in-memory repository and listing

    Shallow embedding of [src/API/models.py] (pydantic models and their
    field validators) and [src/API/api.py] (the in-memory repository
    [RepoProductos] and the HTTP endpoints built on it), followed by the
    properties of the catalogue.

    Conventions of the embedding.
    - A Python [str] is the list of its code points ([N]).
    - A [Decimal] is a finite decimal number [coef * 10 ^ exp].
    - A [UUID] is its 128-bit integer.
    - [_items] is a Python dict whose iteration order is observable
      ([listar]), so it is an insertion-ordered association list;
      [_name_to_id] is only ever looked up, so it is a [gmap].
    - Code that raises or mutates [self] runs in a state-and-exception
      monad over the repository. *)

From stdpp Require Import gmap list strings.
From Stdlib Require Import ZArith NArith Lia.

Set Default Proof Using "Type".
Local Open Scope N_scope.

(** ** Python strings *)

Abbreviation char := N.
Abbreviation str := (list N).

(** Literals: a Rocq string literal holds the UTF-8 bytes of its text;
    [pystr] decodes them into code points. *)
Fixpoint bytes_of (s : string) : list N :=
  match s with
  | EmptyString => []
  | String a s' => Ascii.N_of_ascii a :: bytes_of s'
  end.

Fixpoint utf8_decode (more : nat) (acc : N) (bs : list N) : str :=
  match bs with
  | [] => []
  | b :: bs' =>
      match more with
      | O =>
          if b <? 0x80 then b :: utf8_decode 0 0 bs'
          else if b <? 0xE0 then utf8_decode 1 (b mod 32) bs'
          else if b <? 0xF0 then utf8_decode 2 (b mod 16) bs'
          else utf8_decode 3 (b mod 8) bs'
      | S O => (acc * 64 + b mod 64) :: utf8_decode 0 0 bs'
      | S k => utf8_decode k (acc * 64 + b mod 64) bs'
      end
  end.

Definition pystr (s : string) : str := utf8_decode 0 0 (bytes_of s).

Definition between (lo hi c : N) : bool := (lo <=? c) && (c <=? hi).

(** [str.isspace] on one code point (CPython's [_PyUnicode_IsWhitespace]). *)
Definition isspace (c : char) : bool :=
  between 0x09 0x0D c || between 0x1C 0x20 c || (c =? 0x85) || (c =? 0xA0)
  || (c =? 0x1680) || between 0x2000 0x200A c || (c =? 0x2028)
  || (c =? 0x2029) || (c =? 0x202F) || (c =? 0x205F) || (c =? 0x3000).

(** [s.strip()] *)
Fixpoint lstrip (s : str) : str :=
  match s with
  | [] => []
  | c :: s' => if isspace c then lstrip s' else s
  end.

Definition rstrip (s : str) : str := rev (lstrip (rev s)).

Definition strip (s : str) : str := rstrip (lstrip s).

(** [s.split()]: the maximal runs of non-whitespace characters.  [cur] is
    the word being read, most recent character first. *)
Fixpoint split_from (cur : str) (s : str) : list str :=
  match s with
  | [] => match cur with [] => [] | _ => [rev cur] end
  | c :: s' =>
      if isspace c
      then match cur with
           | [] => split_from [] s'
           | _ => rev cur :: split_from [] s'
           end
      else split_from (c :: cur) s'
  end.

Definition split (s : str) : list str := split_from [] s.

(** [sep.join(ws)] *)
Fixpoint join (sep : str) (ws : list str) : str :=
  match ws with
  | [] => []
  | [w] => w
  | w :: ws' => w ++ sep ++ join sep ws'
  end.

Definition SPACE : str := [0x20].

(** [" ".join(v.strip().split())] *)
Definition collapse (v : str) : str := join SPACE (split (strip v)).

(** [needle in hay] on strings *)
Fixpoint startswith (s p : str) : bool :=
  match p, s with
  | [], _ => true
  | _ :: _, [] => false
  | a :: p', b :: s' => (a =? b) && startswith s' p'
  end.

Fixpoint str_contains (hay needle : str) : bool :=
  startswith hay needle
  || match hay with
     | [] => false
     | _ :: hay' => str_contains hay' needle
     end.

(** ** The Unicode character database

    Case mapping, compatibility decomposition and combining classes are
    written out for Basic Latin and Latin-1 Supplement (U+0000..U+00FF),
    which hold every character a product name may contain and every
    allowed category.  The rest of the database is a parameter. *)

Record unicodedata := {
  lower_ext : str -> str;       (* [str.lower] on a string that leaves Latin-1 *)
  NFKD_ext : str -> str;        (* [normalize("NFKD", _)] on such a string *)
  combining_ext : char -> bool  (* [combining(c) != 0] from U+034F on *)
}.

Definition latin1 (c : char) : bool := c <? 0x100.

Definition lower_latin1 (c : char) : char :=
  if between 0x41 0x5A c || (between 0xC0 0xDE c && negb (c =? 0xD7))
  then c + 0x20 else c.

(** Compatibility decompositions of U+0000..U+00FF (UnicodeData.txt);
    the accented letters of U+00C0..U+00FF are a base letter and a mark. *)
Definition letter_marks : list (N * (N * N)) :=
  [ (0xC0, (0x41, 0x300)); (0xC1, (0x41, 0x301)); (0xC2, (0x41, 0x302));
    (0xC3, (0x41, 0x303)); (0xC4, (0x41, 0x308)); (0xC5, (0x41, 0x30A));
    (0xC7, (0x43, 0x327));
    (0xC8, (0x45, 0x300)); (0xC9, (0x45, 0x301)); (0xCA, (0x45, 0x302));
    (0xCB, (0x45, 0x308));
    (0xCC, (0x49, 0x300)); (0xCD, (0x49, 0x301)); (0xCE, (0x49, 0x302));
    (0xCF, (0x49, 0x308));
    (0xD1, (0x4E, 0x303));
    (0xD2, (0x4F, 0x300)); (0xD3, (0x4F, 0x301)); (0xD4, (0x4F, 0x302));
    (0xD5, (0x4F, 0x303)); (0xD6, (0x4F, 0x308));
    (0xD9, (0x55, 0x300)); (0xDA, (0x55, 0x301)); (0xDB, (0x55, 0x302));
    (0xDC, (0x55, 0x308));
    (0xDD, (0x59, 0x301)) ].

Definition other_decompositions : list (N * list N) :=
  [ (0xA0, [0x20]); (0xA8, [0x20; 0x308]); (0xAA, [0x61]);
    (0xAF, [0x20; 0x304]); (0xB2, [0x32]); (0xB3, [0x33]);
    (0xB4, [0x20; 0x301]); (0xB5, [0x3BC]); (0xB8, [0x20; 0x327]);
    (0xB9, [0x31]); (0xBA, [0x6F]);
    (0xBC, [0x31; 0x2044; 0x34]); (0xBD, [0x31; 0x2044; 0x32]);
    (0xBE, [0x33; 0x2044; 0x34]); (0xFF, [0x79; 0x308]) ].

Fixpoint assoc {A} (k : N) (t : list (N * A)) : option A :=
  match t with
  | [] => None
  | (k', a) :: t' => if k =? k' then Some a else assoc k t'
  end.

Definition NFKD_latin1 (c : char) : str :=
  match assoc c other_decompositions with
  | Some d => d
  | None =>
      match assoc c letter_marks with
      | Some (base, mark) => [base; mark]
      | None =>
          (* a lower-case accented letter decomposes as its capital does *)
          match assoc (c - 0x20) letter_marks with
          | Some (base, mark) =>
              if between 0xE0 0xFD c then [base + 0x20; mark] else [c]
          | None => [c]
          end
      end
  end.

Section Unicode.
Context (ucd : unicodedata).

(** [s.lower()] *)
Definition lower (s : str) : str :=
  if forallb latin1 s then map lower_latin1 s else lower_ext ucd s.

(** [unicodedata.normalize("NFKD", s)] *)
Definition normalize_NFKD (s : str) : str :=
  if forallb latin1 s then flat_map NFKD_latin1 s else NFKD_ext ucd s.

(** [unicodedata.combining(c)] as a truth value.  No code point below
    U+0300 has a combining class; all of U+0300..U+034E have one. *)
Definition combining (c : char) : bool :=
  if c <? 0x300 then false
  else if c <=? 0x34E then true
  else combining_ext ucd c.

Definition _strip_accents (s : str) : str :=
  List.filter (fun c => negb (combining c)) (normalize_NFKD s).
End Unicode.

(** A database that knows nothing beyond the tables above; the closed
    examples below run on it and only use Latin-1 text, on which every
    database agrees. *)
Definition ucd_latin1 : unicodedata :=
  {| lower_ext := fun s => s; NFKD_ext := fun s => s;
     combining_ext := fun _ => false |}.

(** ** Outcomes

    Every failure the service reports, named as in the specification.
    [Unhandled] is a pydantic error raised inside a handler, after the
    request itself was accepted. *)
Inductive error :=
| ValidationError | DuplicateName | NotFound | InvalidRange | EmptyPatch
| Unhandled.

Inductive result (A : Type) :=
| Ok (a : A)
| Err (e : error).
Arguments Ok {A} a.
Arguments Err {A} e.

Definition and_then {A B} (r : result A) (k : A -> result B) : result B :=
  match r with
  | Ok a => k a
  | Err e => Err e
  end.

Definition is_ok {A} (r : result A) : bool :=
  match r with Ok _ => true | Err _ => false end.

#[global] Instance error_eq_dec : EqDecision error.
Proof. solve_decision. Defined.

(** ** Decimal numbers *)

Record Decimal := Dec { coef : Z; exp : Z }.

#[global] Instance Decimal_eq_dec : EqDecision Decimal.
Proof. solve_decision. Defined.

Section Decimals.
Local Open Scope Z_scope.

(** The coefficient of [d] rewritten at the exponent [e <= exp d]. *)
Definition rescale_down (e : Z) (d : Decimal) : Z := coef d * 10 ^ (exp d - e).

(** Comparison of two decimals by value. *)
Definition Dcompare (a b : Decimal) : comparison :=
  let e := Z.min (exp a) (exp b) in
  rescale_down e a ?= rescale_down e b.

Definition Dleb (a b : Decimal) : bool :=
  match Dcompare a b with Gt => false | _ => true end.

Definition Dltb (a b : Decimal) : bool :=
  match Dcompare a b with Lt => true | _ => false end.

(** [n / p] rounded to the nearest integer, a tie going away from zero
    (ROUND_HALF_UP); [p] is a positive power of ten. *)
Definition div_half_up (n p : Z) : Z :=
  Z.sgn n * ((2 * Z.abs n + p) / (2 * p)).

(** Precision of the default decimal context. *)
Definition prec : Z := 28.

(** [v.quantize(q, rounding=ROUND_HALF_UP)]: [v] rewritten at the
    exponent of [q]; [None] is [InvalidOperation], signalled when the
    result needs more than [prec] digits. *)
Definition quantize (v q : Decimal) : option Decimal :=
  let c := if exp q <=? exp v
           then coef v * 10 ^ (exp v - exp q)
           else div_half_up (coef v) (10 ^ (exp q - exp v)) in
  if 10 ^ prec <=? Z.abs c then None else Some (Dec c (exp q)).

Definition Decimal_0_01 : Decimal := Dec 1 (-2).
Definition Decimal_0 : Decimal := Dec 0 0.
Definition Decimal_1000000 : Decimal := Dec 1000000 0.
End Decimals.

(** What a price field receives: a finite decimal, or something pydantic
    does not read as one (text that is no number, NaN, an infinity). *)
Inductive precio_input :=
| AsDecimal (d : Decimal)
| NotDecimal.

(** ** models.py *)

Definition CATEGORIAS_PERMITIDAS : gset str :=
  list_to_set (map pystr
    [ "fruta"; "verdura"; "grano"; "legumbre"; "lacteo"; "carnico";
      "procesado"; "organico"; "bebida"; "especia" ]%string).

(** [_name_re]: the two character classes and the match. *)
Definition name_first (c : char) : bool :=
  between 0x41 0x5A c || between 0x61 0x7A c
  || bool_decide (c ∈ pystr "ÁÉÍÓÚáéíóúÑñ")
  || between 0x30 0x39 c.

Definition name_rest (c : char) : bool :=
  name_first c || bool_decide (c ∈ pystr " -_.").

(** [[...]{2,79}] over the whole of [body]. *)
Definition name_body (body : str) : bool :=
  forallb name_rest body
  && (2 <=? length body)%nat && (length body <=? 79)%nat.

(** [_name_re.match(v)] as a truth value.  [$] matches at the end of the
    string and also just before a final newline. *)
Definition _name_re_match (v : str) : bool :=
  match v with
  | [] => false
  | c :: rest =>
      name_first c
      && (name_body rest
          || match rev rest with
             | nl :: ydob => (nl =? 0x0A) && name_body (rev ydob)
             | [] => false
             end)
  end.

Record ProductoCreate := {
  nombre : str;
  precio : Decimal;
  categorias : list str
}.

(** [ProductoOut(ProductoCreate)]: the inherited fields and [id]. *)
Abbreviation UUID := N.

Record ProductoOut := {
  id : UUID;
  campos : ProductoCreate
}.

(** The declared [Field(...)] constraints; pydantic checks them on the
    value received, before the [field_validator] of the field runs. *)
Definition Field_nombre (v : str) : result str :=
  if (3 <=? length v)%nat && (length v <=? 80)%nat
  then Ok v else Err ValidationError.

Definition Field_precio (v : precio_input) : result Decimal :=
  match v with
  | NotDecimal => Err ValidationError
  | AsDecimal d =>
      if Dltb Decimal_0 d && Dleb d Decimal_1000000
      then Ok d else Err ValidationError
  end.

Definition Field_categorias (v : list str) : result (list str) :=
  if (1 <=? length v)%nat && (length v <=? 10)%nat
  then Ok v else Err ValidationError.

Definition validar_nombre (v : str) : result str :=
  let v := collapse v in
  if negb (_name_re_match v) then Err ValidationError else Ok v.

Definition validar_precio (v : Decimal) : result Decimal :=
  match quantize v Decimal_0_01 with
  | None => Err ValidationError
  | Some q => if Dleb q Decimal_0 then Err ValidationError else Ok q
  end.

Section Models.
Context (ucd : unicodedata).

(** The normal form of one category, as computed in the loop. *)
Definition c_norm (c : str) : str :=
  _strip_accents ucd (join SPACE (split (lower ucd (strip c)))).

(** The loop of [validar_categorias] with its two accumulators. *)
Fixpoint validar_categorias_loop
    (valores limpias : list str) (vistos : gset str) : result (list str) :=
  match valores with
  | [] => Ok limpias
  | c :: valores' =>
      let cn := c_norm c in
      if bool_decide (cn = []) || negb (bool_decide (cn ∈ CATEGORIAS_PERMITIDAS))
      then Err ValidationError
      else if negb (bool_decide (cn ∈ vistos))
           then validar_categorias_loop valores' (limpias ++ [cn]) ({[cn]} ∪ vistos)
           else validar_categorias_loop valores' limpias vistos
  end.

Definition validar_categorias (valores : list str) : result (list str) :=
  validar_categorias_loop valores [] ∅.

(** The three fields as a request delivers them. *)
Record ProductoCreate_input := {
  in_nombre : str;
  in_precio : precio_input;
  in_categorias : list str
}.

(** The validators of the specification: declared constraint, then
    validator. *)
Definition validate_name (raw : str) : result str :=
  and_then (Field_nombre raw) validar_nombre.

Definition validate_price (raw : precio_input) : result Decimal :=
  and_then (Field_precio raw) validar_precio.

Definition validate_categories (raw : list str) : result (list str) :=
  and_then (Field_categorias raw) validar_categorias.

(** The constructor [ProductoCreate], called on the fields [data]. *)
Definition ProductoCreate_new (data : ProductoCreate_input) : result ProductoCreate :=
  and_then (validate_name (in_nombre data)) (fun n =>
  and_then (validate_price (in_precio data)) (fun p =>
  and_then (validate_categories (in_categorias data)) (fun cs =>
  Ok {| nombre := n; precio := p; categorias := cs |}))).

(** [prod.model_dump()] *)
Definition model_dump (prod : ProductoCreate) : ProductoCreate_input :=
  {| in_nombre := nombre prod; in_precio := AsDecimal (precio prod);
     in_categorias := categorias prod |}.

(** The constructor [ProductoOut] called on [id_] and the fields [data];
    when no [id] is passed, [id_] is the value drawn by [uuid4]. *)
Definition ProductoOut_new (id_ : UUID) (data : ProductoCreate_input) : result ProductoOut :=
  and_then (ProductoCreate_new data) (fun c => Ok {| id := id_; campos := c |}).

(** A field of a PATCH body: left out, sent as [null], or sent with a
    value. *)
Inductive campo (A : Type) :=
| Ausente
| Nulo
| Valor (a : A).
Global Arguments Ausente {A}.
Global Arguments Nulo {A}.
Global Arguments Valor {A} a.

Definition campo_validate {A B} (f : A -> result B) (c : campo A) : result (campo B) :=
  match c with
  | Ausente => Ok Ausente
  | Nulo => Ok Nulo
  | Valor a => and_then (f a) (fun b => Ok (Valor b))
  end.

Record ProductoUpdate_input := {
  upd_nombre : campo str;
  upd_precio : campo precio_input;
  upd_categorias : campo (list str)
}.

Record ProductoUpdate := {
  nombre_opt : campo str;
  precio_opt : campo Decimal;
  categorias_opt : campo (list str)
}.

(** The constructor [ProductoUpdate]: the validators of [ProductoCreate],
    each letting [None] through. *)
Definition ProductoUpdate_new (data : ProductoUpdate_input) : result ProductoUpdate :=
  and_then (campo_validate validate_name (upd_nombre data)) (fun n =>
  and_then (campo_validate validate_price (upd_precio data)) (fun p =>
  and_then (campo_validate validate_categories (upd_categorias data)) (fun cs =>
  Ok {| nombre_opt := n; precio_opt := p; categorias_opt := cs |}))).

(** [not cambios.model_dump(exclude_unset=True)] *)
Definition nothing_set (cambios : ProductoUpdate) : bool :=
  match nombre_opt cambios, precio_opt cambios, categorias_opt cambios with
  | Ausente, Ausente, Ausente => true
  | _, _, _ => false
  end.
End Models.

(** ** Python containers *)

(** A dict in iteration order: a new key goes to the end, an existing key
    keeps its place. *)
Section Dict.
Context {K V : Type} `{EqDecision K}.

Fixpoint dict_get (k : K) (d : list (K * V)) : option V :=
  match d with
  | [] => None
  | (k', v) :: d' => if decide (k = k') then Some v else dict_get k d'
  end.

Fixpoint dict_set (k : K) (v : V) (d : list (K * V)) : list (K * V) :=
  match d with
  | [] => [(k, v)]
  | (k', v') :: d' =>
      if decide (k = k') then (k, v) :: d' else (k', v') :: dict_set k v d'
  end.

Fixpoint dict_del (k : K) (d : list (K * V)) : list (K * V) :=
  match d with
  | [] => []
  | (k', v') :: d' =>
      if decide (k = k') then dict_del k d' else (k', v') :: dict_del k d'
  end.

Definition dict_keys (d : list (K * V)) : list K := map fst d.
Definition dict_values (d : list (K * V)) : list V := map snd d.
End Dict.

(** [l[i:j]] for arbitrary integers [i], [j]. *)
Definition slice_index (len i : Z) : Z :=
  if (i <? 0)%Z then Z.max (i + len) 0 else Z.min i len.

Definition slice {A} (l : list A) (i j : Z) : list A :=
  let len := Z.of_nat (length l) in
  let lo := slice_index len i in
  let hi := slice_index len j in
  take (Z.to_nat (hi - lo)) (drop (Z.to_nat lo) l).

(** ** api.py: the repository *)

Record RepoProductos := {
  _items : list (UUID * ProductoOut);
  _name_to_id : gmap str UUID
}.

(** [RepoProductos()] *)
Definition repo_vacio : RepoProductos := {| _items := []; _name_to_id := ∅ |}.

(** Methods run on [self], may change it and may raise. *)
Definition M (A : Type) : Type := RepoProductos -> result A * RepoProductos.

Definition ret {A} (a : A) : M A := fun self => (Ok a, self).

Definition raise {A} (e : error) : M A := fun self => (Err e, self).

Definition bind {A B} (m : M A) (k : A -> M B) : M B :=
  fun self =>
    match m self with
    | (Ok a, self') => k a self'
    | (Err e, self') => (Err e, self')
    end.

Notation "x <- m ;; k" := (bind m (fun x => k))
  (at level 20, m at level 99, k at level 200, only parsing).
Notation "m ;;; k" := (bind m (fun _ => k))
  (at level 20, k at level 200, only parsing).

Definition get_self : M RepoProductos := fun self => (Ok self, self).

Definition items_setitem (k : UUID) (v : ProductoOut) : M unit :=
  fun self => (Ok tt, {| _items := dict_set k v (_items self);
                         _name_to_id := _name_to_id self |}).

Definition items_delitem (k : UUID) : M unit :=
  fun self => (Ok tt, {| _items := dict_del k (_items self);
                         _name_to_id := _name_to_id self |}).

Definition names_setitem (k : str) (v : UUID) : M unit :=
  fun self => (Ok tt, {| _items := _items self;
                         _name_to_id := <[k := v]> (_name_to_id self) |}).

Definition names_delitem (k : str) : M unit :=
  fun self => (Ok tt, {| _items := _items self;
                         _name_to_id := delete k (_name_to_id self) |}).

(** A pydantic model built inside a method: a validation failure there is
    an exception no handler turns into an HTTP error. *)
Definition pydantic {A} (r : result A) : M A :=
  match r with
  | Ok a => ret a
  | Err _ => raise Unhandled
  end.

Record ProductosPage := {
  total : Z;
  items : list ProductoOut
}.

Section Repo.
Context (ucd : unicodedata).

Definition _norm_name (nombre : str) : str := lower ucd nombre.

(** A [UUID] object is always true, so [exclude_id and found == exclude_id]
    tests [found == exclude_id] whenever an id is passed. *)
Definition existe_nombre (nombre_norm : str) (exclude_id : option UUID) : M bool :=
  self <- get_self ;;
  match _name_to_id self !! nombre_norm with
  | None => ret false
  | Some found =>
      match exclude_id with
      | Some e => if decide (found = e) then ret false else ret true
      | None => ret true
      end
  end.

Definition crear (uuid4 : UUID) (prod : ProductoCreate) : M ProductoOut :=
  item <- pydantic (ProductoOut_new ucd uuid4 (model_dump prod)) ;;
  items_setitem (id item) item ;;;
  names_setitem (_norm_name (nombre (campos item))) (id item) ;;;
  ret item.

Definition obtener (id_ : UUID) : M (option ProductoOut) :=
  self <- get_self ;;
  ret (dict_get id_ (_items self)).

Definition listar (q categoria : option str) (min_precio max_precio : option Decimal)
    (limit offset : Z) : M (list ProductoOut * Z) :=
  self <- get_self ;;
  let datos := dict_values (_items self) in
  let datos :=
    match q with
    | Some ((_ :: _) as q) =>
        let qn := _strip_accents ucd (lower ucd (strip q)) in
        List.filter (fun p => str_contains
                       (_strip_accents ucd (lower ucd (nombre (campos p)))) qn) datos
    | _ => datos
    end in
  let datos :=
    match categoria with
    | Some ((_ :: _) as categoria) =>
        let cat := _strip_accents ucd (lower ucd (strip categoria)) in
        List.filter (fun p => bool_decide (cat ∈ categorias (campos p))) datos
    | _ => datos
    end in
  let datos :=
    match min_precio with
    | Some min_precio =>
        List.filter (fun p => Dleb min_precio (precio (campos p))) datos
    | None => datos
    end in
  let datos :=
    match max_precio with
    | Some max_precio =>
        List.filter (fun p => Dleb (precio (campos p)) max_precio) datos
    | None => datos
    end in
  let total := Z.of_nat (length datos) in
  let datos := slice datos offset (offset + limit) in
  ret (datos, total).

(** [not actual] holds of [None] only: a model instance is always true.
    The old index entry is deleted before the new record is built. *)
Definition actualizar_full (id_ : UUID) (prod : ProductoCreate) : M ProductoOut :=
  actual <- obtener id_ ;;
  match actual with
  | None => raise NotFound
  | Some actual =>
      let nombre_norm := _norm_name (nombre prod) in
      dup <- existe_nombre nombre_norm (Some id_) ;;
      if dup : bool then raise DuplicateName else
      let viejo_norm := _norm_name (nombre (campos actual)) in
      self <- get_self ;;
      (if bool_decide (is_Some (_name_to_id self !! viejo_norm))
       then names_delitem viejo_norm else ret tt) ;;;
      nuevo <- pydantic (ProductoOut_new ucd id_ (model_dump prod)) ;;
      items_setitem id_ nuevo ;;;
      names_setitem nombre_norm id_ ;;;
      ret nuevo
  end.

(** [base.update(patch)] for one key: [None] when the body sent [null]. *)
Definition updated {A} (actual : A) (c : campo A) : option A :=
  match c with
  | Ausente => Some actual
  | Nulo => None
  | Valor a => Some a
  end.

Definition actualizar_partial (id_ : UUID) (cambios : ProductoUpdate) : M ProductoOut :=
  actual <- obtener id_ ;;
  match actual with
  | None => raise NotFound
  | Some actual =>
      candidato <-
        match updated (nombre (campos actual)) (nombre_opt cambios),
              updated (precio (campos actual)) (precio_opt cambios),
              updated (categorias (campos actual)) (categorias_opt cambios) with
        | Some n, Some p, Some cs =>
            pydantic (ProductoCreate_new ucd
                        {| in_nombre := n; in_precio := AsDecimal p;
                           in_categorias := cs |})
        | _, _, _ => raise Unhandled
        end ;;
      (if bool_decide (lower ucd (nombre candidato) <> lower ucd (nombre (campos actual)))
       then dup <- existe_nombre (_norm_name (nombre candidato)) None ;;
            if dup : bool then raise DuplicateName else ret tt
       else ret tt) ;;;
      actualizar_full id_ candidato
  end.

Definition borrar (id_ : UUID) : M unit :=
  actual <- obtener id_ ;;
  match actual with
  | None => raise NotFound
  | Some actual =>
      items_delitem id_ ;;;
      let norm := _norm_name (nombre (campos actual)) in
      self <- get_self ;;
      if bool_decide (_name_to_id self !! norm = Some id_)
      then names_delitem norm else ret tt
  end.

(** ** api.py: the endpoints

    A body is validated into its model before the handler runs; a
    body that fails is answered with a validation error. *)

Definition crear_producto (uuid4 : UUID) (body : ProductoCreate_input) : M ProductoOut :=
  match ProductoCreate_new ucd body with
  | Err _ => raise ValidationError
  | Ok payload =>
      dup <- existe_nombre (lower ucd (nombre payload)) None ;;
      if dup : bool then raise DuplicateName else crear uuid4 payload
  end.

(** The declared [Query(...)] constraints of [listar_productos]. *)
Definition query_ok (q : option str) (min_precio max_precio : option Decimal)
    (limit offset : Z) : bool :=
  match q with
  | Some q => (1 <=? length q)%nat && (length q <=? 80)%nat
  | None => true
  end
  && match min_precio with Some m => Dltb Decimal_0 m | None => true end
  && match max_precio with Some m => Dltb Decimal_0 m | None => true end
  && (1 <=? limit)%Z && (limit <=? 100)%Z && (0 <=? offset)%Z.

Definition listar_productos (q categoria : option str)
    (min_precio max_precio : option Decimal) (limit offset : Z) : M ProductosPage :=
  if negb (query_ok q min_precio max_precio limit offset)
  then raise ValidationError else
  match min_precio, max_precio with
  | Some lo, Some hi =>
      if Dltb hi lo then raise InvalidRange else ret tt
  | _, _ => ret tt
  end ;;;
  r <- listar q categoria min_precio max_precio limit offset ;;
  ret {| total := r.2; items := r.1 |}.

Definition obtener_producto (id_ : UUID) : M ProductoOut :=
  prod <- obtener id_ ;;
  match prod with
  | None => raise NotFound
  | Some prod => ret prod
  end.

Definition reemplazar_producto (id_ : UUID) (body : ProductoCreate_input) : M ProductoOut :=
  match ProductoCreate_new ucd body with
  | Err _ => raise ValidationError
  | Ok payload => actualizar_full id_ payload
  end.

Definition actualizar_parcial_producto (id_ : UUID) (body : ProductoUpdate_input) : M ProductoOut :=
  match ProductoUpdate_new ucd body with
  | Err _ => raise ValidationError
  | Ok payload =>
      if nothing_set payload then raise EmptyPatch
      else actualizar_partial id_ payload
  end.

Definition eliminar_producto (id_ : UUID) : M unit := borrar id_.

(** ** Runs of the service *)

(** A request that can change the repository.  [POST] carries the value
    [uuid4] returns while it is served. *)
Inductive request :=
| POST (uuid4 : UUID) (body : ProductoCreate_input)
| PUT (id_ : UUID) (body : ProductoCreate_input)
| PATCH (id_ : UUID) (body : ProductoUpdate_input)
| DELETE (id_ : UUID).

Definition after {A} (m : M A) (self : RepoProductos) : RepoProductos := (m self).2.

Definition serve (r : request) (self : RepoProductos) : RepoProductos :=
  match r with
  | POST uuid4 body => after (crear_producto uuid4 body) self
  | PUT id_ body => after (reemplazar_producto id_ body) self
  | PATCH id_ body => after (actualizar_parcial_producto id_ body) self
  | DELETE id_ => after (eliminar_producto id_) self
  end.

(** The repository after a sequence of requests, first request first. *)
Definition run (rs : list request) (self : RepoProductos) : RepoProductos :=
  foldl (fun s r => serve r s) self rs.
End Repo.

(** * Vocabulary of the properties

    What the statements below speak of: the rules of the specification
    written on their own, the repository each method leaves behind, the
    invariants of the repository, and a few requests to run. *)

(** ** Text *)

Definition nospace (w : str) : Prop := Forall (fun c => isspace c = false) w.

(** A word is a non-empty run of characters none of which is whitespace. *)
Definition word (w : str) : Prop := w <> [] /\ nospace w.

(** The rules of the specification on a name: 3 to 80 characters, all of
    the class of [_name_re], the first one a letter or a digit. *)
Definition name_rules (v : str) : bool :=
  (3 <=? length v)%nat && (length v <=? 80)%nat
  && forallb name_rest v
  && match v with c :: _ => name_first c | [] => false end.

(** ** Prices *)

Section Rounding.
Local Open Scope Z_scope.

(** [c] hundredths is [d] rounded to two decimals, half away from zero:
    with [d = x * 10^e] and one hundredth [= u * 10^e], the distance of
    [|c| * u] to [|x|] is at most half of [u], and a tie goes up. *)
Definition rounds_half_up (d : Decimal) (c : Z) : Prop :=
  let e := Z.min (exp d) (-2) in
  let x := rescale_down e d in
  let u := 10 ^ (-2 - e) in
  (c = 0 \/ Z.sgn c = Z.sgn x)
  /\ 2 * Z.abs c * u - u <= 2 * Z.abs x < 2 * Z.abs c * u + u.
End Rounding.

(** ** Categories *)

(** The first occurrence of every element, in the order of the list. *)
Fixpoint first_occurrences (l : list str) : list str :=
  match l with
  | [] => []
  | x :: l' =>
      x :: List.filter (fun y => negb (bool_decide (y = x))) (first_occurrences l')
  end.

Definition allowed (x : str) : bool := bool_decide (x ∈ CATEGORIAS_PERMITIDAS).

(** ** The repository *)

Section Vocabulary.
Context (ucd : unicodedata).

(** A model that validation maps to itself. *)
Definition validated (prod : ProductoCreate) : Prop :=
  ProductoCreate_new ucd (model_dump prod) = Ok prod.

(** The answer of [existe_nombre]. *)
Definition taken (n : str) (exclude_id : option UUID) (self : RepoProductos) : bool :=
  match _name_to_id self !! n with
  | None => false
  | Some found =>
      match exclude_id with
      | Some e => negb (bool_decide (found = e))
      | None => true
      end
  end.

(** The repository once [crear] has stored [item]. *)
Definition stored (item : ProductoOut) (self : RepoProductos) : RepoProductos :=
  {| _items := dict_set (id item) item (_items self);
     _name_to_id :=
       <[lower ucd (nombre (campos item)) := id item]> (_name_to_id self) |}.

(** The repository once [actualizar_full] has put [prod] in the place
    of [actual]. *)
Definition replaced (id_ : UUID) (prod : ProductoCreate) (actual : ProductoOut)
    (self : RepoProductos) : RepoProductos :=
  {| _items := dict_set id_ {| id := id_; campos := prod |} (_items self);
     _name_to_id :=
       <[lower ucd (nombre prod) := id_]>
         (delete (lower ucd (nombre (campos actual))) (_name_to_id self)) |}.

(** The repository once [borrar] has removed [actual]. *)
Definition removed (id_ : UUID) (actual : ProductoOut) (self : RepoProductos) : RepoProductos :=
  {| _items := dict_del id_ (_items self);
     _name_to_id :=
       if bool_decide (_name_to_id self !! lower ucd (nombre (campos actual)) = Some id_)
       then delete (lower ucd (nombre (campos actual))) (_name_to_id self)
       else _name_to_id self |}.

(** The candidate [actualizar_partial] builds from the stored record
    and the fields of the body. *)
Definition candidato_de (actual : ProductoOut) (cambios : ProductoUpdate) : result ProductoCreate :=
  match updated (nombre (campos actual)) (nombre_opt cambios),
        updated (precio (campos actual)) (precio_opt cambios),
        updated (categorias (campos actual)) (categorias_opt cambios) with
  | Some n, Some p, Some cs =>
      match ProductoCreate_new ucd {| in_nombre := n; in_precio := AsDecimal p;
                                      in_categorias := cs |} with
      | Ok c => Ok c
      | Err _ => Err Unhandled
      end
  | _, _, _ => Err Unhandled
  end.

(** What holds of the repository between two requests: keys are not
    repeated, a record is filed under its own [id], it is a validated
    model, and the index sends its folded name to its [id]. *)
Record repo_inv (self : RepoProductos) : Prop := {
  inv_keys : NoDup (dict_keys (_items self));
  inv_id : forall i p, dict_get i (_items self) = Some p -> id p = i;
  inv_valid : forall i p, dict_get i (_items self) = Some p -> validated (campos p);
  inv_indexed : forall i p,
    dict_get i (_items self) = Some p ->
    _name_to_id self !! lower ucd (nombre (campos p)) = Some i
}.

(** Every entry of the index is the folded name of the record it points
    to. *)
Definition index_sound (self : RepoProductos) : Prop :=
  forall k i, _name_to_id self !! k = Some i ->
    exists p, dict_get i (_items self) = Some p /\ lower ucd (nombre (campos p)) = k.

(** [uuid4] returns an identifier no stored product has: checked for
    each [POST] of a run, in the state it is served in. *)
Definition fresh_uuid (r : request) (self : RepoProductos) : bool :=
  match r with
  | POST uuid4 _ =>
      match dict_get uuid4 (_items self) with None => true | Some _ => false end
  | _ => true
  end.

Fixpoint fresh_uuids (rs : list request) (self : RepoProductos) : bool :=
  match rs with
  | [] => true
  | r :: rs' => fresh_uuid r self && fresh_uuids rs' (serve ucd r self)
  end.
End Vocabulary.

(** ** Listing *)

(** A product survives the filters of a listing. *)
Definition survives (ucd : unicodedata) (q categoria : option str)
    (min_precio max_precio : option Decimal) (p : ProductoOut) : bool :=
  match q with
  | Some ((_ :: _) as q) =>
      str_contains (_strip_accents ucd (lower ucd (nombre (campos p))))
                   (_strip_accents ucd (lower ucd (strip q)))
  | _ => true
  end
  && match categoria with
     | Some ((_ :: _) as c) =>
         bool_decide (_strip_accents ucd (lower ucd (strip c)) ∈ categorias (campos p))
     | _ => true
     end
  && match min_precio with Some m => Dleb m (precio (campos p)) | None => true end
  && match max_precio with Some m => Dleb (precio (campos p)) m | None => true end.

(** ** Requests to run *)

(** Half a hundredth. *)
Definition Decimal_0_005 : Decimal := Dec 5 (-3).

(** The name "abc" followed by 78 spaces. *)
Definition abc_y_espacios : str := pystr "abc" ++ repeat 0x20 78.

(** A request body, written with Rocq string literals. *)
Definition body (n : string) (p : Decimal) (cs : list string) : ProductoCreate_input :=
  {| in_nombre := pystr n; in_precio := AsDecimal p; in_categorias := map pystr cs |}.

Definition solo_precio (raw : precio_input) : ProductoUpdate_input :=
  {| upd_nombre := Ausente; upd_precio := Valor raw; upd_categorias := Ausente |}.

(** Two products, "Manzana Roja" at 10.00 and "Pera" at 7.50. *)
Definition dos_productos (ucd : unicodedata) : RepoProductos :=
  run ucd [ POST 1 (body "Manzana Roja" (Dec 10 0) ["fruta"]);
            POST 2 (body "Pera" (Dec 75 (-1)) ["Fruta"; "orgánico"]) ] repo_vacio.

(** The two requests that make [dos_productos]. *)
Definition dos_altas : list request :=
  [ POST 1 (body "Manzana Roja" (Dec 10 0) ["fruta"]);
    POST 2 (body "Pera" (Dec 75 (-1)) ["Fruta"; "orgánico"]) ].

(** A run with fresh identifiers: two products created, one renamed, one
    deleted. *)
Definition corrida : list request :=
  [ POST 1 (body "Manzana Roja" (Dec 10 0) ["fruta"]);
    POST 2 (body "Pera" (Dec 75 (-1)) ["Fruta"; "orgánico"]);
    PUT 1 (body "Manzana Verde" (Dec 11 0) ["fruta"]);
    DELETE 2;
    POST 3 (body "pera" (Dec 6 0) ["fruta"]) ].

(** ** Further vocabulary *)

(** One character of a name: its decomposition without the marks is one
    ASCII character, itself of the class, whose decomposition is itself. *)
Definition strips_to_ascii (ucd : unicodedata) (c : char) : bool :=
  match List.filter (fun x => negb (combining ucd x)) (NFKD_latin1 c) with
  | [a] => (a <? 0x80) && name_rest a
           && bool_decide (List.filter (fun x => negb (combining ucd x)) (NFKD_latin1 a) = [a])
  | _ => false
  end.

(** ** Text laid out as words and whitespace *)

(** A run of whitespace, possibly empty. *)
Definition allspace (g : str) : Prop := Forall (fun c => isspace c = true) g.

(** A text written as the whitespace it starts with, then its words,
    each with the whitespace that follows it. *)
Definition layout (lead : str) (wgs : list (str * str)) : str :=
  lead ++ flat_map (fun wg => wg.1 ++ wg.2) wgs.

(** The words are words, what follows them is whitespace, and there is
    some whitespace between a word and the next. *)
Inductive well_separated : list (str * str) -> Prop :=
| separated_none : well_separated []
| separated_last w g : word w -> allspace g -> well_separated [(w, g)]
| separated_more w g wgs :
    word w -> allspace g -> g <> [] -> wgs <> [] -> well_separated wgs ->
    well_separated ((w, g) :: wgs).

(** The same words with one space between a word and the next, and
    nothing after the last. *)
Fixpoint single_spaced (wgs : list (str * str)) : list (str * str) :=
  match wgs with
  | [] => []
  | (w, _) :: wgs' =>
      match wgs' with
      | [] => [(w, [])]
      | _ :: _ => (w, [0x20]) :: single_spaced wgs'
      end
  end.

(** The characters allowed in a name, as ranges of code points: letters
    and digits, the twelve accented letters of the pattern, and the four
    signs. *)
Definition name_letter_or_digit (c : char) : Prop :=
  0x41 <= c <= 0x5A \/ 0x61 <= c <= 0x7A \/ 0x30 <= c <= 0x39
  \/ c ∈ [0xC1; 0xC9; 0xCD; 0xD3; 0xDA; 0xE1; 0xE9; 0xED; 0xF3; 0xFA; 0xD1; 0xF1].

Definition name_character (c : char) : Prop :=
  name_letter_or_digit c \/ c ∈ [0x20; 0x2D; 0x5F; 0x2E].

(** ** Letters up to case and accent *)

(** The accented letters of Latin-1, under the plain lower-case letter
    they are an accented form of. *)
Definition accented : list (char * str) :=
  [ (0x61, pystr "ÀÁÂÃÄÅàáâãäå"); (0x63, pystr "Çç"); (0x65, pystr "ÈÉÊËèéêë");
    (0x69, pystr "ÌÍÎÏìíîï"); (0x6E, pystr "Ññ"); (0x6F, pystr "ÒÓÔÕÖòóôõö");
    (0x75, pystr "ÙÚÛÜùúûü"); (0x79, pystr "Ýýÿ") ].

(** A visible ASCII character other than a capital letter. *)
Definition plain (a : char) : bool :=
  between 0x21 0x7E a && negb (between 0x41 0x5A a).

(** What [x] may be for the plain character [a]: [a] itself and, for a
    letter, its capital and its accented forms in either case. *)
Definition variants (a : char) : str :=
  a :: (if between 0x61 0x7A a
        then (a - 0x20) :: match assoc a accented with Some forms => forms | None => [] end
        else []).

Definition variant_of (x a : char) : Prop := plain a = true /\ x ∈ variants a.

(** Word by word and character by character. *)
Definition variants_of (wgs kgs : list (str * str)) : Prop :=
  Forall2 (fun wg kg => Forall2 variant_of wg.1 kg.1) wgs kgs.

(** What accent stripping after lower-casing makes of one character. *)
Definition fold_char (ucd : unicodedata) (x : char) : str :=
  List.filter (fun y => negb (combining ucd y)) (NFKD_latin1 (lower_latin1 x)).

(** * Properties *)

(** ** Text: [strip], [split], [join] *)

Lemma split_from_app cur w s :
  nospace w -> split_from cur (w ++ s) = split_from (rev w ++ cur) s.
Proof.
  revert cur. induction w as [|a w IH]; intros cur Hw; [done|].
  inversion Hw as [|? ? Ha Hw']; subst. simpl. rewrite Ha, IH by done.
  by rewrite <- app_assoc.
Qed.

Lemma split_from_words cur s :
  nospace cur -> Forall word (split_from cur s).
Proof.
  revert cur. induction s as [|c s IH]; intros cur Hcur; simpl.
  - destruct cur as [|a cur]; [constructor|].
    constructor; [|constructor]. split.
    + simpl. by destruct (rev cur).
    + by apply List.Forall_rev.
  - destruct (isspace c) eqn:Hc.
    + destruct cur as [|a cur]; [apply IH; constructor|].
      constructor; [|apply IH; constructor]. split.
      * simpl. by destruct (rev cur).
      * by apply List.Forall_rev.
    + apply IH. by constructor.
Qed.

Lemma split_words s : Forall word (split s).
Proof. apply split_from_words. constructor. Qed.

Lemma split_join ws : Forall word ws -> split (join SPACE ws) = ws.
Proof.
  unfold split. induction 1 as [|w ws [Hne Hw] Hws IH]; [done|].
  destruct ws as [|w' ws].
  - simpl. rewrite <- (app_nil_r w) at 1. rewrite split_from_app by done.
    simpl. rewrite app_nil_r. destruct (rev w) eqn:E.
    + apply (f_equal (@rev _)) in E. rewrite rev_involutive in E. done.
    + by rewrite <- E, rev_involutive.
  - change (join SPACE (w :: w' :: ws)) with (w ++ 0x20 :: join SPACE (w' :: ws)).
    rewrite split_from_app by done. rewrite app_nil_r.
    cbn [split_from]. change (isspace 0x20) with true. cbn iota.
    rewrite IH. destruct (rev w) eqn:E.
    + apply (f_equal (@rev _)) in E. rewrite rev_involutive in E. done.
    + by rewrite <- E, rev_involutive.
Qed.

Lemma lstrip_head c s : isspace c = false -> lstrip (c :: s) = c :: s.
Proof. intros H. simpl. by rewrite H. Qed.

Lemma rstrip_last s c : isspace c = false -> rstrip (s ++ [c]) = s ++ [c].
Proof.
  intros H. unfold rstrip. rewrite rev_unit, lstrip_head by done.
  change (c :: rev s) with ([c] ++ rev s).
  by rewrite rev_app_distr, rev_involutive.
Qed.

Lemma join_last ws :
  Forall word ws -> ws <> [] ->
  exists s c, join SPACE ws = s ++ [c] /\ isspace c = false.
Proof.
  induction 1 as [|w ws [Hne Hw] Hws IH]; [done|]. intros _.
  destruct ws as [|w' ws].
  - simpl. destruct (exists_last Hne) as (s & c & ->).
    exists s, c. split; [done|].
    unfold nospace in Hw. rewrite Forall_app, Forall_singleton in Hw. tauto.
  - destruct IH as (s & c & E & Hc); [done|].
    exists (w ++ SPACE ++ s), c. split; [|done].
    change (join SPACE (w :: w' :: ws)) with (w ++ SPACE ++ join SPACE (w' :: ws)).
    by rewrite E, <- !app_assoc.
Qed.

Lemma strip_join ws : Forall word ws -> strip (join SPACE ws) = join SPACE ws.
Proof.
  intros Hws. destruct ws as [|w ws]; [done|].
  destruct (join_last (w :: ws)) as (s & c & E & Hc); [done..|].
  assert (exists a t, join SPACE (w :: ws) = a :: t /\ isspace a = false)
    as (a & t & Ht & Ha).
  { inversion Hws as [|? ? [Hne Hw] _]; subst.
    destruct w as [|a w]; [done|]. inversion Hw; subst.
    destruct ws; simpl; eauto. }
  unfold strip. generalize dependent (join SPACE (w :: ws)). intros j -> Ht.
  rewrite Ht, lstrip_head, <- Ht by done. by apply rstrip_last.
Qed.

(** [collapse] returns a string it leaves alone. *)
Lemma collapse_idem v : collapse (collapse v) = collapse v.
Proof.
  unfold collapse at 1.
  unfold collapse. rewrite strip_join, split_join; auto using split_words.
Qed.

(** The only whitespace in a collapsed string is the space. *)
Lemma join_chars ws c :
  Forall word ws -> c ∈ join SPACE ws -> isspace c = false \/ c = 0x20.
Proof.
  induction 1 as [|w ws [Hne Hw] Hws IH]; intros Hc.
  - by apply elem_of_nil in Hc.
  - assert (c ∈ w -> isspace c = false) as Hin.
    { intros ?. unfold nospace in Hw. rewrite Forall_forall in Hw. auto. }
    destruct ws as [|w' ws]; [left; auto|].
    change (join SPACE (w :: w' :: ws)) with (w ++ SPACE ++ join SPACE (w' :: ws)) in Hc.
    rewrite !elem_of_app in Hc. destruct Hc as [?|[Hc|?]]; auto.
    right. unfold SPACE in Hc. by apply list_elem_of_singleton in Hc.
Qed.

Lemma collapse_chars v c : c ∈ collapse v -> isspace c = false \/ c = 0x20.
Proof. apply join_chars, split_words. Qed.

(** ** Names *)

Lemma name_re_match_rules v :
  (forall c, c ∈ v -> isspace c = false \/ c = 0x20) ->
  _name_re_match v = name_rules v.
Proof.
  intros Hv. destruct v as [|c rest]; [done|].
  unfold _name_re_match, name_rules, name_body.
  assert (match rev rest with
          | nl :: ydob =>
              (nl =? 0x0A) && (forallb name_rest (rev ydob)
                               && (2 <=? length (rev ydob))%nat
                               && (length (rev ydob) <=? 79)%nat)
          | [] => false
          end = false) as ->.
  { destruct (rev rest) as [|nl ydob] eqn:E; [done|].
    destruct (N.eqb_spec nl 0x0A) as [->|]; [|done]. exfalso.
    assert (0x0A ∈ c :: rest) as H.
    { right. apply list_elem_of_In, in_rev. rewrite E. by left. }
    destruct (Hv _ H) as [H'|H']; discriminate H'. }
  rewrite orb_false_r. cbn [forallb length].
  change (3 <=? S (length rest))%nat with (2 <=? length rest)%nat.
  change (S (length rest) <=? 80)%nat with (length rest <=? 79)%nat.
  destruct (name_first c) eqn:Hc; [|by rewrite andb_false_r].
  unfold name_rest at 2. rewrite Hc. cbn [orb andb].
  destruct (forallb name_rest rest), (2 <=? length rest)%nat,
    (length rest <=? 79)%nat; reflexivity.
Qed.

Lemma validar_nombre_rules v :
  validar_nombre v = if name_rules (collapse v) then Ok (collapse v)
                     else Err ValidationError.
Proof.
  unfold validar_nombre. cbn zeta.
  rewrite name_re_match_rules by apply collapse_chars.
  by destruct (name_rules (collapse v)).
Qed.

Lemma validate_name_rules raw :
  validate_name raw =
    if (3 <=? length raw)%nat && (length raw <=? 80)%nat && name_rules (collapse raw)
    then Ok (collapse raw) else Err ValidationError.
Proof.
  unfold validate_name, Field_nombre.
  destruct ((3 <=? length raw)%nat && (length raw <=? 80)%nat); [|done].
  apply validar_nombre_rules.
Qed.

(** A validated name passes validation again, unchanged. *)
Lemma validate_name_idem raw v : validate_name raw = Ok v -> validate_name v = Ok v.
Proof.
  rewrite !validate_name_rules. intros H.
  destruct ((3 <=? length raw)%nat && (length raw <=? 80)%nat
            && name_rules (collapse raw)) eqn:E; [|done].
  injection H as <-. rewrite collapse_idem.
  apply andb_prop in E as [_ E]. rewrite E.
  unfold name_rules in E. do 2 apply andb_prop in E as [E _]. by rewrite E.
Qed.

(** ** Prices *)

Section PriceFacts.
Local Open Scope Z_scope.

Lemma pow10_pos k : 0 <= k -> 0 < 10 ^ k.
Proof. intros. by apply Z.pow_pos_nonneg. Qed.

Lemma div_half_up_abs n p :
  0 < p ->
  let k := (2 * Z.abs n + p) / (2 * p) in
  Z.abs (div_half_up n p) = k
  /\ (div_half_up n p = 0 \/ Z.sgn (div_half_up n p) = Z.sgn n)
  /\ 2 * k * p - p <= 2 * Z.abs n < 2 * k * p + p.
Proof.
  intros Hp k. unfold div_half_up. fold k.
  assert (0 <= k) as Hk by (apply Z.div_pos; lia).
  pose proof (Z.div_mod (2 * Z.abs n + p) (2 * p) ltac:(lia)) as Hdm.
  pose proof (Z.mod_pos_bound (2 * Z.abs n + p) (2 * p) ltac:(lia)) as Hm.
  fold k in Hdm.
  split; [|split].
  - destruct (Z.eq_dec n 0) as [->|Hn].
    + simpl. change (Z.abs 0) with 0 in *. nia.
    + assert (Z.sgn n = 1 \/ Z.sgn n = -1) as [-> | ->] by lia; lia.
  - destruct (Z.eq_dec k 0) as [->|Hk0]; [left; lia|right].
    rewrite Z.sgn_mul. replace (Z.sgn k) with 1 by lia.
    rewrite Z.mul_1_r. apply Z.sgn_sgn.
  - nia.
Qed.

Lemma quantize_rounds d q :
  quantize d Decimal_0_01 = Some q ->
  exp q = -2 /\ rounds_half_up d (coef q).
Proof.
  unfold quantize, Decimal_0_01. cbn [exp coef].
  set (c := if -2 <=? exp d then _ else _).
  destruct (10 ^ prec <=? Z.abs c); [done|]. intros [= <-]. cbn [exp coef].
  split; [done|]. unfold rounds_half_up, rescale_down. cbn zeta.
  subst c. destruct (Z.leb_spec (-2) (exp d)) as [Hle|Hlt].
  - rewrite Z.min_r by lia. replace (-2 - -2) with 0 by lia.
    replace (exp d - -2) with (exp d + 2) by lia.
    rewrite Z.pow_0_r. split; [by right|lia].
  - rewrite Z.min_l by lia. rewrite Z.sub_diag, Z.pow_0_r, Z.mul_1_r.
    assert (0 < 10 ^ (-2 - exp d)) as Hp by (apply pow10_pos; lia).
    pose proof (div_half_up_abs (coef d) _ Hp) as (Ha & Hs & Hb).
    cbn zeta in *. rewrite Ha. split; [done|lia].
Qed.

Lemma rounds_half_up_unique d c c' :
  rounds_half_up d c -> rounds_half_up d c' -> c = c'.
Proof.
  unfold rounds_half_up. cbn zeta.
  set (x := rescale_down _ d). set (u := 10 ^ _).
  assert (0 < u) as Hu by (apply pow10_pos; lia).
  intros [Hs H] [Hs' H'].
  assert (Z.abs c = Z.abs c') as Habs by nia.
  destruct Hs as [->|Hs], Hs' as [->|Hs']; try lia.
Qed.

Lemma Dltb_0 d : Dltb Decimal_0 d = (0 <? coef d).
Proof.
  unfold Dltb, Dcompare, rescale_down, Decimal_0. cbn [coef exp].
  rewrite Z.mul_0_l.
  pose proof (pow10_pos (exp d - Z.min 0 (exp d)) ltac:(lia)).
  destruct (Z.compare_spec 0 (coef d * 10 ^ (exp d - Z.min 0 (exp d))));
    destruct (Z.ltb_spec 0 (coef d)); try done; nia.
Qed.

Lemma Dleb_0 d : Dleb d Decimal_0 = (coef d <=? 0).
Proof.
  unfold Dleb, Dcompare, rescale_down, Decimal_0. cbn [coef exp].
  rewrite Z.mul_0_l.
  pose proof (pow10_pos (exp d - Z.min (exp d) 0) ltac:(lia)).
  destruct (Z.compare_spec (coef d * 10 ^ (exp d - Z.min (exp d) 0)) 0);
    destruct (Z.leb_spec (coef d) 0); try done; nia.
Qed.

(** Between 0 and 1,000,000 the quantization is defined and stays at
    or below 100,000,000 hundredths. *)
Lemma quantize_in_range d :
  Dltb Decimal_0 d = true -> Dleb d Decimal_1000000 = true ->
  exists c, quantize d Decimal_0_01 = Some (Dec c (-2)) /\ 0 <= c <= 100000000.
Proof.
  rewrite Dltb_0. intros Hpos%Z.ltb_lt Hle.
  assert (exists c, (if -2 <=? exp d
                     then coef d * 10 ^ (exp d - -2)
                     else div_half_up (coef d) (10 ^ (-2 - exp d))) = c
                    /\ 0 <= c <= 100000000) as (c & Hc & Hb).
  { eexists; split; [reflexivity|].
    unfold Dleb, Dcompare, rescale_down, Decimal_1000000 in Hle.
    cbn [coef exp] in Hle.
    destruct (Z.leb_spec (-2) (exp d)) as [H2|H2].
    - destruct (Z.le_gt_cases 0 (exp d)) as [H0|H0].
      + rewrite Z.min_r, Z.sub_0_r, Z.pow_0_r in Hle by lia.
        replace (exp d - -2) with (exp d + 2) by lia.
        rewrite Z.pow_add_r by lia. change (10 ^ 2) with 100.
        pose proof (pow10_pos (exp d) H0).
        destruct (Z.compare_spec (coef d * 10 ^ exp d) (1000000 * 1)); try done; nia.
      + rewrite Z.min_l, Z.sub_diag, Z.pow_0_r in Hle by lia.
        assert (exp d = -2 \/ exp d = -1) as [E|E] by lia; rewrite E in *;
          change (10 ^ (-2 - -2)) with 1; change (10 ^ (-1 - -2)) with 10;
          change (10 ^ (0 - -2)) with 100 in Hle;
          change (10 ^ (0 - -1)) with 10 in Hle;
          destruct (Z.compare_spec (coef d * 1) (1000000 * 100));
          destruct (Z.compare_spec (coef d * 1) (1000000 * 10)); try done; lia.
    - rewrite Z.min_l, Z.sub_diag, Z.pow_0_r in Hle by lia.
      replace (0 - exp d) with (2 + (-2 - exp d)) in Hle by lia.
      rewrite Z.pow_add_r in Hle by lia. change (10 ^ 2) with 100 in Hle.
      set (p := 10 ^ (-2 - exp d)) in *.
      assert (0 < p) as Hp by (apply pow10_pos; lia).
      assert (coef d <= 100000000 * p) as Hm.
      { destruct (Z.compare_spec (coef d * 1) (1000000 * (100 * p))); try done; lia. }
      unfold div_half_up. rewrite Z.sgn_pos, Z.abs_eq, Z.mul_1_l by lia.
      split; [apply Z.div_pos; lia|].
      apply Z.lt_succ_r, Z.div_lt_upper_bound; lia. }
  exists c. split; [|done]. unfold quantize, Decimal_0_01. cbn [exp coef].
  rewrite Hc. destruct (Z.leb_spec (10 ^ prec) (Z.abs c)) as [Hbig|]; [|done].
  exfalso. change (10 ^ prec) with 10000000000000000000000000000 in Hbig. lia.
Qed.

(** A validated price passes validation again, unchanged. *)
Lemma validate_price_idem raw q :
  validate_price raw = Ok q -> validate_price (AsDecimal q) = Ok q.
Proof.
  unfold validate_price, Field_precio. destruct raw as [d|]; [|done].
  destruct (Dltb Decimal_0 d) eqn:Hpos; [|done].
  destruct (Dleb d Decimal_1000000) eqn:Hle; [|done]. cbn.
  destruct (quantize_in_range d Hpos Hle) as (c & Hq & Hc).
  unfold validar_precio. rewrite Hq, Dleb_0. cbn [coef].
  destruct (Z.leb_spec c 0); [done|]. intros [= <-].
  rewrite Dltb_0. cbn [coef]. destruct (Z.ltb_spec 0 c); [|lia].
  assert (Dleb (Dec c (-2)) Decimal_1000000 = true) as ->.
  { unfold Dleb, Dcompare, rescale_down, Decimal_1000000. cbn [coef exp].
    change (Z.min (-2) 0) with (-2). change (10 ^ (-2 - -2)) with 1.
    change (1000000 * 10 ^ (0 - -2)) with 100000000.
    destruct (Z.compare_spec (c * 1) 100000000); try done; lia. }
  cbn. assert (quantize (Dec c (-2)) Decimal_0_01 = Some (Dec c (-2))) as ->.
  { unfold quantize, Decimal_0_01. cbn [exp coef].
    change (-2 <=? -2) with true. cbn iota.
    change (10 ^ (-2 - -2)) with 1. rewrite Z.mul_1_r.
    destruct (Z.leb_spec (10 ^ prec) (Z.abs c)) as [Hbig|]; [|done].
    exfalso. change (10 ^ prec) with 10000000000000000000000000000 in Hbig. lia. }
  rewrite Dleb_0. cbn [coef]. destruct (Z.leb_spec c 0); [lia|done].
Qed.
End PriceFacts.

(** ** Categories *)

Lemma filter_twice {A} (f g : A -> bool) l :
  List.filter f (List.filter g l) = List.filter (fun x => g x && f x) l.
Proof.
  induction l as [|a l IH]; [done|]. simpl.
  destruct (g a); simpl; [destruct (f a)|]; by rewrite IH.
Qed.

Lemma first_occurrences_elem x l : x ∈ first_occurrences l <-> x ∈ l.
Proof.
  induction l as [|a l IH]; [done|]. simpl. rewrite !elem_of_cons, <- IH.
  rewrite !list_elem_of_In, filter_In, negb_true_iff, bool_decide_eq_false.
  destruct (decide (x = a)); tauto.
Qed.

Lemma NoDup_filter_bool {A} (f : A -> bool) l : NoDup l -> NoDup (List.filter f l).
Proof.
  induction 1 as [|a l Ha Hl IH]; simpl; [constructor|].
  destruct (f a); [|done]. constructor; [|done].
  rewrite list_elem_of_In, filter_In, <- list_elem_of_In. tauto.
Qed.

Lemma first_occurrences_NoDup l : NoDup (first_occurrences l).
Proof.
  induction l as [|a l IH]; simpl; constructor.
  - rewrite list_elem_of_In, filter_In, negb_true_iff, bool_decide_eq_false. tauto.
  - by apply NoDup_filter_bool.
Qed.

Lemma first_occurrences_length l : (length (first_occurrences l) <= length l)%nat.
Proof.
  induction l as [|a l IH]; simpl; [lia|].
  pose proof (filter_length_le (fun y => negb (bool_decide (y = a)))
                (first_occurrences l)). lia.
Qed.

(** A list without repetition is its own list of first occurrences. *)
Lemma first_occurrences_id l : NoDup l -> first_occurrences l = l.
Proof.
  induction 1 as [|a l Ha Hl IH]; [done|]. simpl. rewrite IH. f_equal.
  apply forallb_filter_id, forallb_forall. intros y Hy.
  apply negb_true_iff, bool_decide_eq_false. intros ->.
  by apply Ha, list_elem_of_In.
Qed.

Lemma empty_not_allowed : allowed [] = false.
Proof. by vm_compute. Qed.

Section CategoryFacts.
Context (ucd : unicodedata).

(** The loop, from any point of its run: [vistos] holds what [limpias]
    lists. *)
Lemma validar_categorias_loop_spec valores limpias vistos :
  (forall x, x ∈ vistos <-> x ∈ limpias) ->
  validar_categorias_loop ucd valores limpias vistos =
    if forallb (fun c => allowed (c_norm ucd c)) valores
    then Ok (limpias ++
             List.filter (fun y => negb (bool_decide (y ∈ limpias)))
               (first_occurrences (map (c_norm ucd) valores)))
    else Err ValidationError.
Proof.
  revert limpias vistos.
  induction valores as [|c valores IH]; intros limpias vistos Hv.
  { simpl. by rewrite app_nil_r. }
  cbn [validar_categorias_loop forallb map first_occurrences]. cbn zeta.
  set (cn := c_norm ucd c). fold (allowed cn).
  destruct (allowed cn) eqn:Hal.
  2:{ by rewrite orb_true_r. }
  destruct (bool_decide_reflect (cn = [])) as [E|_].
  { rewrite E in Hal. by rewrite empty_not_allowed in Hal. }
  cbn [orb negb andb].
  destruct (bool_decide_reflect (cn ∈ vistos)) as [Hin|Hin]; cbn [negb].
  - rewrite (IH limpias vistos Hv).
    destruct (forallb _ valores); [|done]. f_equal. f_equal.
    cbn [List.filter]. apply Hv in Hin.
    rewrite (bool_decide_eq_true_2 _ Hin). cbn [negb].
    rewrite filter_twice. apply filter_ext_in. intros y _.
    destruct (bool_decide_reflect (y = cn)) as [->|]; [|done].
    by rewrite (bool_decide_eq_true_2 _ Hin).
  - rewrite (IH (limpias ++ [cn]) ({[cn]} ∪ vistos)).
    2:{ intros x. rewrite elem_of_union, elem_of_singleton, elem_of_app,
          list_elem_of_singleton, Hv. tauto. }
    destruct (forallb _ valores); [|done]. f_equal.
    cbn [List.filter]. rewrite Hv in Hin.
    rewrite (bool_decide_eq_false_2 _ Hin). cbn [negb].
    rewrite <- app_assoc. cbn [app]. do 2 f_equal.
    rewrite filter_twice. apply filter_ext_in. intros y _.
    destruct (bool_decide_reflect (y = cn)) as [->|Hne]; cbn [negb andb].
    + apply negb_false_iff, bool_decide_eq_true. apply elem_of_app. right.
      by apply list_elem_of_singleton.
    + apply (f_equal negb). apply bool_decide_ext.
      rewrite elem_of_app, list_elem_of_singleton. tauto.
Qed.

Lemma validar_categorias_spec valores :
  validar_categorias ucd valores =
    if forallb (fun c => allowed (c_norm ucd c)) valores
    then Ok (first_occurrences (map (c_norm ucd) valores))
    else Err ValidationError.
Proof.
  unfold validar_categorias. rewrite validar_categorias_loop_spec by set_solver.
  destruct (forallb _ valores); [|done]. cbn [app]. f_equal.
  apply forallb_filter_id, forallb_forall. intros y _.
  apply negb_true_iff, bool_decide_eq_false. apply not_elem_of_nil.
Qed.

Lemma validate_categories_spec raw :
  validate_categories ucd raw =
    if (1 <=? length raw)%nat && (length raw <=? 10)%nat
       && forallb (fun c => allowed (c_norm ucd c)) raw
    then Ok (first_occurrences (map (c_norm ucd) raw))
    else Err ValidationError.
Proof.
  unfold validate_categories, Field_categorias.
  destruct ((1 <=? length raw)%nat && (length raw <=? 10)%nat); [|done].
  apply validar_categorias_spec.
Qed.

(** An allowed category is already in normal form. *)
Lemma c_norm_allowed x : allowed x = true -> c_norm ucd x = x.
Proof.
  unfold allowed, CATEGORIAS_PERMITIDAS. rewrite bool_decide_eq_true.
  rewrite elem_of_list_to_set. cbn [map]. intros H.
  repeat (apply elem_of_cons in H as [-> | H]; [by vm_compute|]).
  by apply elem_of_nil in H.
Qed.

(** A validated list of categories passes validation again, unchanged. *)
Lemma validate_categories_idem raw cs :
  validate_categories ucd raw = Ok cs -> validate_categories ucd cs = Ok cs.
Proof.
  rewrite !validate_categories_spec.
  destruct ((1 <=? length raw)%nat && (length raw <=? 10)%nat
            && forallb (fun c => allowed (c_norm ucd c)) raw) eqn:E; [|done].
  intros [= <-]. apply andb_prop in E as [E Hall].
  apply andb_prop in E as [H1 H10].
  set (cs := first_occurrences (map (c_norm ucd) raw)).
  assert (Forall (fun x => allowed x = true) cs) as Hcs.
  { apply Forall_forall. intros x Hx. unfold cs in Hx.
    apply (proj1 (first_occurrences_elem x _)) in Hx.
    apply list_elem_of_In, in_map_iff in Hx as (c & <- & Hc).
    rewrite forallb_forall in Hall. by apply Hall. }
  assert (map (c_norm ucd) cs = cs) as Hmap.
  { clear -Hcs. induction Hcs as [|x l Hx Hl IH]; [done|].
    cbn [map]. by rewrite IH, c_norm_allowed. }
  assert (forallb (fun c => allowed (c_norm ucd c)) cs = true) as ->.
  { apply forallb_forall. intros x Hx%list_elem_of_In.
    rewrite Forall_forall in Hcs. rewrite c_norm_allowed; auto. }
  rewrite Hmap, first_occurrences_id by apply first_occurrences_NoDup.
  assert ((1 <=? length cs)%nat = true) as ->.
  { subst cs. destruct raw; [done|]. done. }
  assert ((length cs <=? 10)%nat = true) as ->; [|done].
  apply Nat.leb_le. apply Nat.leb_le in H10.
  pose proof (first_occurrences_length (map (c_norm ucd) raw)) as Hl.
  rewrite length_map in Hl. subst cs. lia.
Qed.

(** ** Models *)

(** [ProductoCreate] accepts its own output, unchanged: building
    a model again from [model_dump()] cannot fail. *)
Lemma ProductoCreate_new_idem data prod :
  ProductoCreate_new ucd data = Ok prod ->
  ProductoCreate_new ucd (model_dump prod) = Ok prod.
Proof.
  unfold ProductoCreate_new, model_dump. cbn [in_nombre in_precio in_categorias].
  destruct (validate_name (in_nombre data)) as [n|] eqn:Hn; [|done].
  destruct (validate_price (in_precio data)) as [p|] eqn:Hp; [|done].
  destruct (validate_categories ucd (in_categorias data)) as [cs|] eqn:Hc; [|done].
  cbn. intros [= <-]. cbn.
  by rewrite (validate_name_idem _ _ Hn), (validate_price_idem _ _ Hp),
    (validate_categories_idem _ _ Hc).
Qed.
End CategoryFacts.

(** ** Dicts *)

Section DictFacts.
Context {K V : Type} `{EqDecision K}.
Implicit Types (d : list (K * V)) (k : K) (v : V).

Lemma dict_get_set k k' v d :
  dict_get k' (dict_set k v d) = if decide (k' = k) then Some v else dict_get k' d.
Proof.
  induction d as [|[k0 v0] d IH]; simpl.
  - by destruct (decide (k' = k)).
  - destruct (decide (k = k0)) as [->|Hne]; simpl.
    + destruct (decide (k' = k0)); done.
    + rewrite IH. destruct (decide (k' = k0)) as [->|]; [|done].
      by destruct (decide (k0 = k)) as [->|].
Qed.

Lemma dict_get_del k k' d :
  dict_get k' (dict_del k d) = if decide (k' = k) then None else dict_get k' d.
Proof.
  induction d as [|[k0 v0] d IH]; simpl.
  - by destruct (decide (k' = k)).
  - destruct (decide (k = k0)) as [->|Hne]; simpl.
    + rewrite IH. destruct (decide (k' = k0)); done.
    + rewrite IH. destruct (decide (k' = k0)) as [->|]; [|done].
      by destruct (decide (k0 = k)) as [->|].
Qed.

Lemma dict_keys_set k v d x :
  x ∈ dict_keys (dict_set k v d) <-> x = k \/ x ∈ dict_keys d.
Proof.
  unfold dict_keys. induction d as [|[k0 v0] d IH]; simpl.
  - rewrite list_elem_of_singleton, elem_of_nil. tauto.
  - destruct (decide (k = k0)) as [->|Hne]; simpl.
    + rewrite !elem_of_cons. tauto.
    + rewrite !elem_of_cons, IH. tauto.
Qed.

Lemma dict_keys_del k d x :
  x ∈ dict_keys (dict_del k d) <-> x <> k /\ x ∈ dict_keys d.
Proof.
  unfold dict_keys. induction d as [|[k0 v0] d IH]; simpl.
  - rewrite elem_of_nil. tauto.
  - destruct (decide (k = k0)) as [->|Hne]; simpl.
    + rewrite IH, elem_of_cons. intuition congruence.
    + rewrite !elem_of_cons, IH. intuition congruence.
Qed.

Lemma dict_set_NoDup k v d : NoDup (dict_keys d) -> NoDup (dict_keys (dict_set k v d)).
Proof.
  unfold dict_keys. induction d as [|[k0 v0] d IH]; simpl; intros Hd.
  - constructor; [apply not_elem_of_nil|constructor].
  - apply NoDup_cons in Hd as [Hk0 Hd].
    destruct (decide (k = k0)) as [->|Hne]; simpl.
    + by constructor.
    + constructor; [|by apply IH].
      intros [->|Hin]%dict_keys_set; done.
Qed.

Lemma dict_del_NoDup k d : NoDup (dict_keys d) -> NoDup (dict_keys (dict_del k d)).
Proof.
  unfold dict_keys. induction d as [|[k0 v0] d IH]; simpl; intros Hd; [done|].
  apply NoDup_cons in Hd as [Hk0 Hd].
  destruct (decide (k = k0)) as [->|Hne]; simpl; [by apply IH|].
  constructor; [|by apply IH]. intros [_ Hin]%dict_keys_del. done.
Qed.

Lemma dict_get_elem k v d : dict_get k d = Some v -> (k, v) ∈ d.
Proof.
  induction d as [|[k0 v0] d IH]; simpl; [done|].
  destruct (decide (k = k0)) as [->|]; [intros [= ->]; left|right; auto].
Qed.

Lemma dict_elem_get k v d : NoDup (dict_keys d) -> (k, v) ∈ d -> dict_get k d = Some v.
Proof.
  unfold dict_keys. induction d as [|[k0 v0] d IH]; simpl; intros Hd Hin.
  - by apply elem_of_nil in Hin.
  - apply NoDup_cons in Hd as [Hk0 Hd].
    apply elem_of_cons in Hin as [[= -> ->]|Hin].
    + by destruct (decide (k0 = k0)).
    + destruct (decide (k = k0)) as [->|]; [|auto].
      exfalso. apply Hk0. apply list_elem_of_fmap. by exists (k0, v).
Qed.

(** Values that determine their key are distinct under any image that
    determines the key. *)
Lemma dict_values_NoDup {B} (f : V -> B) d :
  NoDup (dict_keys d) ->
  (forall k v k' v', dict_get k d = Some v -> dict_get k' d = Some v' ->
                     f v = f v' -> k = k') ->
  NoDup (map f (dict_values d)).
Proof.
  unfold dict_keys, dict_values. intros Hd Hinj.
  assert (forall k v k' v', (k, v) ∈ d -> (k', v') ∈ d -> f v = f v' -> k = k') as Hinj'.
  { intros k v k' v' H1 H2. apply Hinj; by apply dict_elem_get. }
  clear Hinj. induction d as [|[k0 v0] d IH]; simpl; [constructor|].
  apply NoDup_cons in Hd as [Hk0 Hd]. constructor.
  - intros Hin. apply list_elem_of_fmap in Hin as (v & Hv & Hin).
    apply list_elem_of_fmap in Hin as ([k v'] & -> & Hin). simpl in Hv.
    apply Hk0. apply list_elem_of_fmap. exists (k, v'). split; [|done].
    simpl. apply (Hinj' k0 v0 k v'); [left|by right|done].
  - apply IH; [done|]. intros k v k' v' H1 H2. apply Hinj'; by right.
Qed.
End DictFacts.

(** ** The repository: what each method computes *)

Section RepoFacts.
Context (ucd : unicodedata).

Lemma existe_nombre_eq n ex self :
  existe_nombre n ex self = (Ok (taken n ex self), self).
Proof.
  unfold existe_nombre, taken, bind, get_self, ret.
  destruct (_name_to_id self !! n) as [found|]; [|done].
  destruct ex as [e|]; [|done].
  by destruct (decide (found = e)) as [->|Hne];
    [rewrite bool_decide_eq_true_2|rewrite bool_decide_eq_false_2].
Qed.

Lemma crear_eq uuid4 prod self :
  validated ucd prod ->
  crear ucd uuid4 prod self =
    (Ok {| id := uuid4; campos := prod |}, stored ucd {| id := uuid4; campos := prod |} self).
Proof.
  intros Hv. unfold crear, bind, ProductoOut_new. by rewrite Hv.
Qed.

Lemma crear_producto_eq uuid4 body self :
  crear_producto ucd uuid4 body self =
    match ProductoCreate_new ucd body with
    | Err _ => (Err ValidationError, self)
    | Ok prod =>
        if taken (lower ucd (nombre prod)) None self
        then (Err DuplicateName, self)
        else (Ok {| id := uuid4; campos := prod |},
              stored ucd {| id := uuid4; campos := prod |} self)
    end.
Proof.
  unfold crear_producto.
  destruct (ProductoCreate_new ucd body) as [prod|] eqn:E; [|done].
  unfold bind at 1. rewrite existe_nombre_eq.
  destruct (taken _ None self); [done|].
  apply crear_eq. by eapply ProductoCreate_new_idem.
Qed.

Lemma actualizar_full_eq id_ prod self :
  validated ucd prod ->
  actualizar_full ucd id_ prod self =
    match dict_get id_ (_items self) with
    | None => (Err NotFound, self)
    | Some actual =>
        if taken (lower ucd (nombre prod)) (Some id_) self
        then (Err DuplicateName, self)
        else (Ok {| id := id_; campos := prod |}, replaced ucd id_ prod actual self)
    end.
Proof.
  intros Hv. unfold actualizar_full, obtener. unfold bind at 1 2, get_self, ret.
  destruct (dict_get id_ (_items self)) as [actual|]; [|done].
  unfold bind at 1. rewrite existe_nombre_eq. unfold _norm_name.
  destruct (taken _ (Some id_) self); [done|].
  unfold bind, get_self, ProductoOut_new. rewrite Hv.
  unfold replaced. cbn.
  destruct (bool_decide_reflect
              (is_Some (_name_to_id self !! lower ucd (nombre (campos actual)))))
    as [Hs|Hn]; cbn; [done|].
  rewrite delete_id; [done|]. by apply eq_None_not_Some.
Qed.

Lemma actualizar_partial_eq id_ cambios self :
  actualizar_partial ucd id_ cambios self =
    match dict_get id_ (_items self) with
    | None => (Err NotFound, self)
    | Some actual =>
        match candidato_de ucd actual cambios with
        | Err e => (Err e, self)
        | Ok cand =>
            if bool_decide (lower ucd (nombre cand)
                            <> lower ucd (nombre (campos actual)))
               && taken (lower ucd (nombre cand)) None self
            then (Err DuplicateName, self)
            else actualizar_full ucd id_ cand self
        end
    end.
Proof.
  unfold actualizar_partial, obtener. unfold bind at 1 2, get_self, ret.
  destruct (dict_get id_ (_items self)) as [actual|]; [|done].
  unfold candidato_de, bind at 1.
  destruct (updated _ (nombre_opt cambios)) as [n|]; [|done].
  destruct (updated _ (precio_opt cambios)) as [p|]; [|done].
  destruct (updated _ (categorias_opt cambios)) as [cs|]; [|done].
  destruct (ProductoCreate_new ucd _) as [cand|]; [|done].
  unfold pydantic, ret. unfold bind at 1.
  destruct (bool_decide _); cbn [andb]; [|done].
  unfold bind at 1. rewrite existe_nombre_eq.
  by destruct (taken _ None self).
Qed.

Lemma borrar_eq id_ self :
  borrar ucd id_ self =
    match dict_get id_ (_items self) with
    | None => (Err NotFound, self)
    | Some actual => (Ok tt, removed ucd id_ actual self)
    end.
Proof.
  unfold borrar, obtener. unfold bind at 1 2, get_self, ret.
  destruct (dict_get id_ (_items self)) as [actual|]; [|done].
  unfold removed, bind, items_delitem, _norm_name. cbn.
  by destruct (bool_decide _).
Qed.

Lemma candidato_de_validated actual cambios cand :
  candidato_de ucd actual cambios = Ok cand -> validated ucd cand.
Proof.
  unfold candidato_de.
  destruct (updated _ (nombre_opt cambios)) as [n|]; [|done].
  destruct (updated _ (precio_opt cambios)) as [p|]; [|done].
  destruct (updated _ (categorias_opt cambios)) as [cs|]; [|done].
  destruct (ProductoCreate_new ucd _) as [c|] eqn:E; [|done].
  intros [= <-]. by eapply ProductoCreate_new_idem.
Qed.
End RepoFacts.

(** ** The repository: invariants *)

Section Invariants.
Context (ucd : unicodedata).

Lemma repo_vacio_inv : repo_inv ucd repo_vacio.
Proof. split; try done. constructor. Qed.

Lemma repo_vacio_sound : index_sound ucd repo_vacio.
Proof. intros k i H. cbn in H. by rewrite lookup_empty in H. Qed.

Lemma stored_inv uuid4 prod self :
  repo_inv ucd self -> validated ucd prod ->
  taken (lower ucd (nombre prod)) None self = false ->
  repo_inv ucd (stored ucd {| id := uuid4; campos := prod |} self).
Proof.
  intros [Hk Hi Hv Hx] Hprod Hfree. unfold taken in Hfree.
  destruct (_name_to_id self !! lower ucd (nombre prod)) eqn:Hnone; [done|].
  split; cbn [stored _items _name_to_id id campos nombre].
  - by apply dict_set_NoDup.
  - intros i p. rewrite dict_get_set.
    destruct (decide (i = uuid4)) as [->|]; [by intros [= <-]|apply Hi].
  - intros i p. rewrite dict_get_set.
    destruct (decide (i = uuid4)) as [->|]; [by intros [= <-]|apply Hv].
  - intros i p. rewrite dict_get_set.
    destruct (decide (i = uuid4)) as [->|Hne].
    + intros [= <-]. apply lookup_insert_eq.
    + intros Hp. rewrite lookup_insert_ne; [by apply Hx|].
      intros E. apply Hx in Hp. rewrite <- E in Hp. congruence.
Qed.

Lemma stored_sound uuid4 prod self :
  index_sound ucd self -> dict_get uuid4 (_items self) = None ->
  index_sound ucd (stored ucd {| id := uuid4; campos := prod |} self).
Proof.
  intros Hs Hfresh k i. cbn [stored _items _name_to_id id campos nombre].
  rewrite lookup_insert. destruct (decide (lower ucd (nombre prod) = k)) as [<-|Hne].
  - intros [= <-]. exists {| id := uuid4; campos := prod |}. split; [|done].
    rewrite dict_get_set. by destruct (decide (uuid4 = uuid4)).
  - intros (p & Hp & Hn)%Hs. exists p. split; [|done]. rewrite dict_get_set.
    destruct (decide (i = uuid4)) as [->|]; [congruence|done].
Qed.

Lemma replaced_inv id_ prod actual self :
  repo_inv ucd self -> dict_get id_ (_items self) = Some actual ->
  validated ucd prod ->
  taken (lower ucd (nombre prod)) (Some id_) self = false ->
  repo_inv ucd (replaced ucd id_ prod actual self).
Proof.
  intros [Hk Hi Hv Hx] Hact Hprod Hfree. unfold taken in Hfree.
  split; cbn [replaced _items _name_to_id id campos nombre].
  - by apply dict_set_NoDup.
  - intros i p. rewrite dict_get_set.
    destruct (decide (i = id_)) as [->|]; [by intros [= <-]|apply Hi].
  - intros i p. rewrite dict_get_set.
    destruct (decide (i = id_)) as [->|]; [by intros [= <-]|apply Hv].
  - intros i p. rewrite dict_get_set.
    destruct (decide (i = id_)) as [->|Hne].
    + intros [= <-]. apply lookup_insert_eq.
    + intros Hp. pose proof (Hx _ _ Hp) as Hip. pose proof (Hx _ _ Hact) as Hia.
      rewrite lookup_insert_ne, lookup_delete_ne; [done| |].
      * intros E. rewrite E in Hia. congruence.
      * intros E. rewrite E, Hip in Hfree.
        by rewrite bool_decide_eq_false_2 in Hfree.
Qed.

Lemma replaced_sound id_ prod actual self :
  repo_inv ucd self -> index_sound ucd self ->
  dict_get id_ (_items self) = Some actual ->
  index_sound ucd (replaced ucd id_ prod actual self).
Proof.
  intros [Hk Hi Hv Hx] Hs Hact k i.
  cbn [replaced _items _name_to_id id campos nombre].
  rewrite lookup_insert. destruct (decide (lower ucd (nombre prod) = k)) as [<-|Hne].
  - intros [= <-]. exists {| id := id_; campos := prod |}. split; [|done].
    rewrite dict_get_set. by destruct (decide (id_ = id_)).
  - rewrite lookup_delete.
    destruct (decide (lower ucd (nombre (campos actual)) = k)) as [<-|Hold]; [done|].
    intros (p & Hp & Hn)%Hs. exists p. split; [|done]. rewrite dict_get_set.
    destruct (decide (i = id_)) as [->|]; [congruence|done].
Qed.

Lemma removed_inv id_ actual self :
  repo_inv ucd self -> dict_get id_ (_items self) = Some actual ->
  repo_inv ucd (removed ucd id_ actual self).
Proof.
  intros [Hk Hi Hv Hx] Hact. pose proof (Hx _ _ Hact) as Hia.
  unfold removed. rewrite (bool_decide_eq_true_2 _ Hia).
  split; cbn [_items _name_to_id].
  - by apply dict_del_NoDup.
  - intros i p. rewrite dict_get_del.
    destruct (decide (i = id_)); [done|apply Hi].
  - intros i p. rewrite dict_get_del.
    destruct (decide (i = id_)); [done|apply Hv].
  - intros i p. rewrite dict_get_del.
    destruct (decide (i = id_)) as [|Hne]; [done|]. intros Hp.
    pose proof (Hx _ _ Hp) as Hip. rewrite lookup_delete_ne; [done|].
    intros E. rewrite E in Hia. congruence.
Qed.

Lemma removed_sound id_ actual self :
  repo_inv ucd self -> index_sound ucd self ->
  dict_get id_ (_items self) = Some actual ->
  index_sound ucd (removed ucd id_ actual self).
Proof.
  intros [Hk Hi Hv Hx] Hs Hact k i. pose proof (Hx _ _ Hact) as Hia.
  unfold removed. rewrite (bool_decide_eq_true_2 _ Hia). cbn [_items _name_to_id].
  rewrite lookup_delete.
  destruct (decide (lower ucd (nombre (campos actual)) = k)) as [<-|Hold]; [done|].
  intros (p & Hp & Hn)%Hs. exists p. split; [|done]. rewrite dict_get_del.
  destruct (decide (i = id_)) as [->|]; [congruence|done].
Qed.

(** [actualizar_full] on a validated model. *)
Lemma actualizar_full_inv id_ prod self :
  repo_inv ucd self -> validated ucd prod ->
  repo_inv ucd (after (actualizar_full ucd id_ prod) self).
Proof.
  intros Hinv Hv. unfold after. rewrite actualizar_full_eq by done.
  destruct (dict_get id_ (_items self)) as [actual|] eqn:Hact; [|done].
  destruct (taken _ (Some id_) self) eqn:Ht; [done|].
  by apply replaced_inv.
Qed.

Lemma actualizar_full_sound id_ prod self :
  repo_inv ucd self -> index_sound ucd self -> validated ucd prod ->
  index_sound ucd (after (actualizar_full ucd id_ prod) self).
Proof.
  intros Hinv Hs Hv. unfold after. rewrite actualizar_full_eq by done.
  destruct (dict_get id_ (_items self)) as [actual|] eqn:Hact; [|done].
  destruct (taken _ (Some id_) self) eqn:Ht; [done|].
  by apply replaced_sound.
Qed.

Lemma actualizar_partial_inv id_ cambios self :
  repo_inv ucd self -> repo_inv ucd (after (actualizar_partial ucd id_ cambios) self).
Proof.
  intros Hinv. unfold after. rewrite actualizar_partial_eq.
  destruct (dict_get id_ (_items self)) as [actual|]; [|done].
  destruct (candidato_de ucd actual cambios) as [cand|] eqn:Hc; [|done].
  destruct (_ && _); [done|].
  apply actualizar_full_inv; [done|]. by eapply candidato_de_validated.
Qed.

Lemma actualizar_partial_sound id_ cambios self :
  repo_inv ucd self -> index_sound ucd self ->
  index_sound ucd (after (actualizar_partial ucd id_ cambios) self).
Proof.
  intros Hinv Hs. unfold after. rewrite actualizar_partial_eq.
  destruct (dict_get id_ (_items self)) as [actual|]; [|done].
  destruct (candidato_de ucd actual cambios) as [cand|] eqn:Hc; [|done].
  destruct (_ && _); [done|].
  apply actualizar_full_sound; [done..|]. by eapply candidato_de_validated.
Qed.

(** Every request keeps the invariant, whatever [uuid4] returns. *)
Lemma serve_inv r self : repo_inv ucd self -> repo_inv ucd (serve ucd r self).
Proof.
  intros Hinv. destruct r as [uuid4 body|id_ body|id_ body|id_]; unfold serve.
  - unfold after. rewrite crear_producto_eq.
    destruct (ProductoCreate_new ucd body) as [prod|] eqn:E; [|done].
    destruct (taken _ None self) eqn:Ht; [done|].
    apply stored_inv; [done| |done]. by eapply ProductoCreate_new_idem.
  - unfold reemplazar_producto.
    destruct (ProductoCreate_new ucd body) as [prod|] eqn:E; [|done].
    apply actualizar_full_inv; [done|]. by eapply ProductoCreate_new_idem.
  - unfold actualizar_parcial_producto.
    destruct (ProductoUpdate_new ucd body) as [payload|]; [|done].
    destruct (nothing_set payload); [done|]. by apply actualizar_partial_inv.
  - unfold eliminar_producto, after. rewrite borrar_eq.
    destruct (dict_get id_ (_items self)) as [actual|] eqn:Hact; [|done].
    by apply removed_inv.
Qed.

Lemma run_inv rs self : repo_inv ucd self -> repo_inv ucd (run ucd rs self).
Proof.
  unfold run. revert self. induction rs as [|r rs IH]; intros self Hinv; [done|].
  simpl. apply IH. by apply serve_inv.
Qed.

Lemma serve_sound r self :
  repo_inv ucd self -> index_sound ucd self -> fresh_uuid r self = true ->
  index_sound ucd (serve ucd r self).
Proof.
  intros Hinv Hs Hf. destruct r as [uuid4 body|id_ body|id_ body|id_]; unfold serve.
  - unfold after. rewrite crear_producto_eq.
    destruct (ProductoCreate_new ucd body) as [prod|] eqn:E; [|done].
    destruct (taken _ None self) eqn:Ht; [done|].
    apply stored_sound; [done|]. simpl in Hf.
    by destruct (dict_get uuid4 (_items self)).
  - unfold reemplazar_producto.
    destruct (ProductoCreate_new ucd body) as [prod|] eqn:E; [|done].
    apply actualizar_full_sound; [done..|]. by eapply ProductoCreate_new_idem.
  - unfold actualizar_parcial_producto.
    destruct (ProductoUpdate_new ucd body) as [payload|]; [|done].
    destruct (nothing_set payload); [done|]. by apply actualizar_partial_sound.
  - unfold eliminar_producto, after. rewrite borrar_eq.
    destruct (dict_get id_ (_items self)) as [actual|] eqn:Hact; [|done].
    by apply removed_sound.
Qed.

Lemma run_sound rs self :
  repo_inv ucd self -> index_sound ucd self -> fresh_uuids ucd rs self = true ->
  index_sound ucd (run ucd rs self).
Proof.
  unfold run. revert self. induction rs as [|r rs IH]; intros self Hinv Hs Hf; [done|].
  simpl in *. apply andb_prop in Hf as [Hf Hfs].
  apply IH; [by apply serve_inv|by apply serve_sound|done].
Qed.
End Invariants.

Lemma latin1_range c : c < 0x100 -> In c (map N.of_nat (seq 0 256)).
Proof.
  intros H. apply in_map_iff. exists (N.to_nat c). split; [lia|].
  apply in_seq. lia.
Qed.

(** ** Text: what [collapse] does to a layout *)

Lemma lstrip_layout s : exists g, allspace g /\ s = g ++ lstrip s.
Proof.
  induction s as [|c s (g & Hg & IH)];
    [exists []; split; [constructor|done]|]. simpl.
  destruct (isspace c) eqn:Hc; [|exists []; split; [constructor|done]].
  exists (c :: g). split; [by constructor|]. simpl. by rewrite <- IH.
Qed.

Lemma rstrip_layout s : exists g, allspace g /\ s = rstrip s ++ g.
Proof.
  destruct (lstrip_layout (rev s)) as (g & Hg & E). exists (rev g). split.
  - by apply List.Forall_rev.
  - unfold rstrip. rewrite <- rev_app_distr, <- E. by rewrite rev_involutive.
Qed.

Lemma split_from_lead g s : allspace g -> split_from [] (g ++ s) = split_from [] s.
Proof. induction 1 as [|c g Hc _ IH]; [done|]. simpl. by rewrite Hc. Qed.

Lemma split_from_trail cur g :
  allspace g -> split_from cur g = match cur with [] => [] | _ => [rev cur] end.
Proof.
  intros Hg. revert cur. induction Hg as [|c g Hc _ IH]; intros cur; [done|].
  simpl. rewrite Hc. destruct cur; rewrite IH; done.
Qed.

Lemma split_from_app_trail cur s g :
  allspace g -> split_from cur (s ++ g) = split_from cur s.
Proof.
  intros Hg. revert cur. induction s as [|c s IH]; intros cur; simpl.
  - by apply split_from_trail.
  - destruct (isspace c); [destruct cur|]; by rewrite ?IH.
Qed.

(** Trimming takes no word away. *)
Lemma split_strip s : split (strip s) = split s.
Proof.
  unfold split, strip.
  destruct (lstrip_layout s) as (g1 & Hg1 & E1).
  destruct (rstrip_layout (lstrip s)) as (g2 & Hg2 & E2).
  rewrite E1 at 2. rewrite split_from_lead by done.
  rewrite E2 at 2. by rewrite split_from_app_trail.
Qed.

Lemma word_rev_rev w : word w -> match rev w with [] => [] | _ => [rev (rev w)] end = [w].
Proof.
  intros [Hne _]. destruct (rev w) eqn:E.
  - apply (f_equal (@rev _)) in E. by rewrite rev_involutive in E.
  - by rewrite <- E, rev_involutive.
Qed.

Lemma split_layout lead wgs :
  allspace lead -> well_separated wgs -> split (layout lead wgs) = map fst wgs.
Proof.
  intros Hl Hw. unfold split, layout. rewrite split_from_lead by done. clear Hl lead.
  induction Hw as [|w g Hw Hg|w g wgs Hw Hg Hne Hwgs _ IH]; [done| |].
  - cbn [flat_map fst snd map]. rewrite app_nil_r.
    destruct Hw as [Hne Hns]. rewrite split_from_app, app_nil_r by done.
    rewrite split_from_trail by done. by apply word_rev_rev.
  - cbn [flat_map fst snd map]. rewrite <- app_assoc.
    pose proof Hw as [_ Hns]. rewrite split_from_app, app_nil_r by done.
    destruct g as [|c g]; [done|]. inversion Hg as [|? ? Hc Hg']; subst.
    cbn [app split_from]. rewrite Hc, split_from_lead, IH by done.
    pose proof (word_rev_rev w Hw) as E. destruct (rev w); [done|].
    f_equal. congruence.
Qed.

Lemma join_layout wgs :
  join SPACE (map fst wgs) = layout [] (single_spaced wgs).
Proof.
  unfold layout. cbn [app]. induction wgs as [|[w g] wgs IH]; [done|].
  destruct wgs as [|[w' g'] wgs].
  - cbn. by rewrite !app_nil_r.
  - change (join SPACE (map fst ((w, g) :: (w', g') :: wgs)))
      with (w ++ SPACE ++ join SPACE (map fst ((w', g') :: wgs))).
    rewrite IH. cbn [single_spaced flat_map fst snd]. by rewrite <- app_assoc.
Qed.

(** [collapse] keeps the words of a layout and puts one space between
    them. *)
Lemma collapse_layout lead wgs :
  allspace lead -> well_separated wgs ->
  collapse (layout lead wgs) = layout [] (single_spaced wgs).
Proof.
  intros Hl Hw. unfold collapse.
  by rewrite split_strip, split_layout, join_layout.
Qed.

(** Every text has a layout. *)
Lemma layout_exists s :
  exists lead wgs, allspace lead /\ well_separated wgs /\ s = layout lead wgs.
Proof.
  induction s as [|c s (lead & wgs & Hl & Hw & ->)].
  { exists [], []. split; [constructor|]. split; [constructor|done]. }
  destruct (isspace c) eqn:Hc.
  { exists (c :: lead), wgs. split; [by constructor|]. done. }
  destruct lead as [|l0 lead].
  - destruct Hw as [|w g Hw Hg|w g wgs Hw Hg Hne Hwgs Hrest].
    + exists [], [([c], [])]. split; [constructor|]. split; [|done].
      constructor; [|constructor]. split; [done|]. by repeat constructor.
    + exists [], [(c :: w, g)]. split; [constructor|]. split; [|done].
      constructor; [|done]. destruct Hw as [_ Hns]. split; [done|by constructor].
    + exists [], ((c :: w, g) :: wgs). split; [constructor|]. split; [|done].
      constructor; try done. destruct Hw as [_ Hns]. split; [done|by constructor].
  - exists [], (([c], l0 :: lead) :: wgs). split; [constructor|]. split.
    + assert (word [c]) as Hwc by (split; [done|by repeat constructor]).
      destruct wgs as [|wg wgs]; [by constructor|]. by constructor.
    + unfold layout. cbn [flat_map fst snd app]. by rewrite <- ?app_assoc.
Qed.

(** ** Names: the class of the pattern as code points *)

Lemma name_first_spec c : name_first c = true <-> name_letter_or_digit c.
Proof.
  unfold name_first, name_letter_or_digit, between.
  rewrite !orb_true_iff, !andb_true_iff, !N.leb_le, bool_decide_eq_true.
  change (pystr "ÁÉÍÓÚáéíóúÑñ")
    with [0xC1; 0xC9; 0xCD; 0xD3; 0xDA; 0xE1; 0xE9; 0xED; 0xF3; 0xFA; 0xD1; 0xF1].
  tauto.
Qed.

Lemma name_rest_spec c : name_rest c = true <-> name_character c.
Proof.
  unfold name_rest, name_character.
  rewrite orb_true_iff, name_first_spec, bool_decide_eq_true.
  by change (pystr " -_.") with [0x20; 0x2D; 0x5F; 0x2E].
Qed.

Lemma name_rules_spec v :
  name_rules v = true <->
  (3 <= length v <= 80)%nat
  /\ (forall c, c ∈ v -> name_character c)
  /\ exists c rest, v = c :: rest /\ name_letter_or_digit c.
Proof.
  unfold name_rules. rewrite !andb_true_iff, !Nat.leb_le, forallb_forall.
  split.
  - intros [[[H3 H80] Hall] Hfirst]. split; [done|]. split.
    + intros c Hc. apply name_rest_spec, Hall. by apply list_elem_of_In.
    + destruct v as [|c rest]; [done|]. exists c, rest. split; [done|].
      by apply name_first_spec.
  - intros ([H3 H80] & Hall & c & rest & -> & Hc). split; [split; [done|]|].
    + intros x Hx. apply name_rest_spec, Hall. by apply list_elem_of_In.
    + by apply name_first_spec.
Qed.

(** ** Categories: what [c_norm] does to Latin-1 text *)

Lemma lower_latin1_beyond c : 0x100 <= c -> lower_latin1 c = c.
Proof.
  intros Hc. unfold lower_latin1, between.
  destruct (N.leb_spec c 0x5A); [lia|]. destruct (N.leb_spec c 0xDE); [lia|].
  by rewrite !andb_false_r.
Qed.

Lemma lower_latin1_keeps c :
  isspace (lower_latin1 c) = isspace c /\ latin1 (lower_latin1 c) = latin1 c.
Proof.
  destruct (N.lt_ge_cases c 0x100) as [Hc|Hc]; [|by rewrite lower_latin1_beyond].
  assert (forallb (fun c => bool_decide (isspace (lower_latin1 c) = isspace c)
                            && bool_decide (latin1 (lower_latin1 c) = latin1 c))
            (map N.of_nat (seq 0 256)) = true) as Hall by (by vm_compute).
  rewrite forallb_forall in Hall. specialize (Hall c (latin1_range c Hc)).
  apply andb_prop in Hall as [H1 H2].
  by apply bool_decide_eq_true in H1, H2.
Qed.

Lemma lstrip_lower s : lstrip (map lower_latin1 s) = map lower_latin1 (lstrip s).
Proof.
  induction s as [|c s IH]; [done|]. simpl.
  rewrite (proj1 (lower_latin1_keeps c)). by destruct (isspace c).
Qed.

Lemma strip_lower s : strip (map lower_latin1 s) = map lower_latin1 (strip s).
Proof.
  unfold strip, rstrip. by rewrite lstrip_lower, <- map_rev, lstrip_lower, <- map_rev.
Qed.

Lemma split_from_lower cur s :
  split_from (map lower_latin1 cur) (map lower_latin1 s)
  = map (map lower_latin1) (split_from cur s).
Proof.
  revert cur. induction s as [|c s IH]; intros cur; simpl.
  - rewrite <- map_rev. by destruct cur.
  - rewrite (proj1 (lower_latin1_keeps c)). destruct (isspace c).
    + pose proof (IH []) as IH0. cbn [map] in IH0.
      rewrite <- map_rev, IH0. by destruct cur.
    + apply (IH (c :: cur)).
Qed.

Lemma join_lower ws :
  join SPACE (map (map lower_latin1) ws) = map lower_latin1 (join SPACE ws).
Proof.
  induction ws as [|w ws IH]; [done|]. destruct ws as [|w' ws]; [done|].
  change (join SPACE (map (map lower_latin1) (w :: w' :: ws)))
    with (map lower_latin1 w ++ SPACE ++ join SPACE (map (map lower_latin1) (w' :: ws))).
  rewrite IH.
  change (join SPACE (w :: w' :: ws)) with (w ++ SPACE ++ join SPACE (w' :: ws)).
  by rewrite !map_app.
Qed.

Lemma forallb_lstrip (P : char -> bool) s :
  forallb P s = true -> forallb P (lstrip s) = true.
Proof.
  induction s as [|c s IH]; [done|]. intros H. simpl.
  destruct (isspace c); [|done]. apply IH.
  cbn [forallb] in H. by apply andb_prop in H as [_ H].
Qed.

Lemma forallb_rev (P : char -> bool) s :
  forallb P s = true -> forallb P (rev s) = true.
Proof.
  rewrite !forallb_forall. intros H x Hx. apply H. by apply in_rev.
Qed.

Lemma forallb_strip (P : char -> bool) s :
  forallb P s = true -> forallb P (strip s) = true.
Proof.
  intros H. unfold strip, rstrip.
  by apply forallb_rev, forallb_lstrip, forallb_rev, forallb_lstrip.
Qed.

(** On Latin-1 text the normal form of a category is the collapsed text,
    each character put in lower case, without the accents. *)
Lemma c_norm_latin1 ucd c :
  forallb latin1 c = true ->
  c_norm ucd c = _strip_accents ucd (map lower_latin1 (collapse c)).
Proof.
  intros Hc. unfold c_norm, lower. rewrite (forallb_strip _ _ Hc).
  unfold split. change (split_from [] (map lower_latin1 (strip c)))
    with (split_from (map lower_latin1 []) (map lower_latin1 (strip c))).
  by rewrite split_from_lower, join_lower.
Qed.

Lemma strip_accents_lower ucd s :
  forallb latin1 s = true ->
  _strip_accents ucd (map lower_latin1 s) = flat_map (fold_char ucd) s.
Proof.
  intros Hs. unfold _strip_accents, normalize_NFKD.
  assert (forallb latin1 (map lower_latin1 s) = true) as ->.
  { rewrite forallb_forall in *. intros y (x & <- & Hx)%in_map_iff.
    rewrite (proj2 (lower_latin1_keeps x)). auto. }
  clear Hs. induction s as [|x s IH]; [done|]. cbn [map flat_map].
  by rewrite List.filter_app, IH.
Qed.

Lemma variant_of_fold ucd x a :
  variant_of x a ->
  latin1 x = true /\ isspace x = false /\ fold_char ucd x = [a].
Proof.
  intros [Hplain Hx].
  assert (a < 0x80) as Ha.
  { unfold plain, between in Hplain. rewrite !andb_true_iff, !N.leb_le in Hplain. lia. }
  assert (forallb (fun a => implb (plain a)
             (forallb (fun x => latin1 x && negb (isspace x)
                                && bool_decide (fold_char ucd x = [a]))
                (variants a)))
            (map N.of_nat (seq 0 256)) = true) as Hall by (by vm_compute).
  rewrite forallb_forall in Hall.
  specialize (Hall a (latin1_range a ltac:(lia))). rewrite Hplain in Hall.
  cbn [implb] in Hall. rewrite forallb_forall in Hall.
  specialize (Hall x (proj1 (list_elem_of_In _ _) Hx)).
  rewrite !andb_true_iff, negb_true_iff, bool_decide_eq_true in Hall. tauto.
Qed.

Lemma variants_of_word ucd w k :
  Forall2 variant_of w k ->
  forallb latin1 w = true /\ nospace w /\ flat_map (fold_char ucd) w = k.
Proof.
  induction 1 as [|x a w k Hxa _ (IH1 & IH2 & IH3)]; [by repeat constructor|].
  destruct (variant_of_fold ucd x a Hxa) as (H1 & H2 & H3).
  cbn [forallb flat_map]. rewrite H1, IH1, H3, IH3.
  split; [done|]. split; [by constructor|done].
Qed.

Lemma fold_layout ucd wgs kgs :
  variants_of wgs kgs ->
  forallb latin1 (layout [] (single_spaced wgs)) = true
  /\ flat_map (fold_char ucd) (layout [] (single_spaced wgs))
     = layout [] (single_spaced kgs).
Proof.
  unfold layout. cbn [app].
  induction 1 as [|[w g] [k g'] wgs kgs Hwk Hrest [IH1 IH2]]; [done|].
  destruct (variants_of_word ucd w k Hwk) as (Hl & _ & Hf). cbn [fst] in *.
  destruct Hrest as [|wg kg wgs' kgs' _ _].
  - cbn [single_spaced flat_map fst snd]. rewrite !app_nil_r. done.
  - cbn [single_spaced flat_map fst snd] in *.
    rewrite !forallb_app, !flat_map_app, Hl, Hf, IH1, IH2.
    split; [done|]. by rewrite <- !app_assoc.
Qed.

(** A category written in Latin-1 text, whatever whitespace is around
    and between its words, in any mix of case and accents, is normalized
    to its plain words with one space between them. *)
Lemma c_norm_layout ucd lead wgs kgs :
  allspace lead -> well_separated wgs ->
  forallb latin1 (layout lead wgs) = true ->
  variants_of wgs kgs ->
  c_norm ucd (layout lead wgs) = layout [] (single_spaced kgs).
Proof.
  intros Hl Hw Hlat Hv. rewrite c_norm_latin1, collapse_layout by done.
  destruct (fold_layout ucd wgs kgs Hv) as [H1 H2].
  by rewrite strip_accents_lower.
Qed.

(** A character is a variant of a plain one: by the table. *)
Ltac variant_of_tac :=
  split; [reflexivity|refine (bool_decide_unpack _ _); vm_compute; exact I].

(** * The catalogue's properties *)

(** C1. After any sequence of create, replace, patch and delete requests
    served from the empty repository, no two stored products have the
    same lower-cased name. This holds whatever identifiers [uuid4]
    returns. *)
Theorem folded_names_unique (ucd : unicodedata) (rs : list request) :
  NoDup (map (fun p => lower ucd (nombre (campos p)))
             (dict_values (_items (run ucd rs repo_vacio)))).
Proof.
  destruct (run_inv ucd rs repo_vacio (repo_vacio_inv ucd)) as [Hk _ _ Hx].
  apply dict_values_NoDup; [done|].
  intros k v k' v' H1 H2 E. apply Hx in H1, H2. rewrite E in H1. congruence.
Qed.

(** C2, as stated, fails: [validate_name] does not look at the collapsed
    form only. The name "abc" followed by 78 spaces collapses to "abc",
    which satisfies every rule, and is rejected, because the declared
    length constraint is checked on the 81 characters received. *)
Lemma validate_name_rejects_long_raw :
  length abc_y_espacios = 81%nat
  /\ collapse abc_y_espacios = pystr "abc"
  /\ name_rules (collapse abc_y_espacios) = true
  /\ validate_name abc_y_espacios = Err ValidationError.
Proof. by vm_compute. Qed.

(** The class of [_name_re] has the accented vowels of Spanish and the
    letter N with tilde, not every accented Latin letter. *)
Example validate_name_other_accents :
  validate_name (pystr "Müsli") = Err ValidationError
  /\ validate_name (pystr "Ñandú") = Ok (pystr "Ñandú").
Proof. by vm_compute. Qed.

(** C2, amended. [validate_name] first requires the string received to
    have 3 to 80 characters; it then trims it and collapses its runs of
    whitespace to single spaces, and requires the result to have 3 to 80
    characters, all in the class of [_name_re], the first a letter or
    digit. A string passing both checks is accepted and its collapsed
    form returned; any other string fails with [ValidationError].
    Collapsing is stated on the layout of the text: every text is some
    whitespace, then words each followed by whitespace, and its collapsed
    form is those words with one space between a word and the next. The
    rules are stated on code points. *)
Theorem validate_name_checks_raw_then_collapsed :
  (forall raw,
      validate_name raw =
        if (3 <=? length raw)%nat && (length raw <=? 80)%nat
           && name_rules (collapse raw)
        then Ok (collapse raw)
        else Err ValidationError)
  /\ (forall lead wgs,
        allspace lead -> well_separated wgs ->
        collapse (layout lead wgs) = layout [] (single_spaced wgs))
  /\ (forall raw, exists lead wgs,
        allspace lead /\ well_separated wgs /\ raw = layout lead wgs)
  /\ (forall v,
        name_rules v = true <->
        (3 <= length v <= 80)%nat
        /\ (forall c, c ∈ v -> name_character c)
        /\ exists c rest, v = c :: rest /\ name_letter_or_digit c).
Proof.
  split; [apply validate_name_rules|].
  split; [apply collapse_layout|].
  split; [apply layout_exists|apply name_rules_spec].
Qed.

(** C2 on "  Manzana    Roja ": two spaces, then "Manzana" followed by
    four spaces and "Roja" followed by one. *)
Lemma validate_name_checks_raw_then_collapsed_witness :
  allspace (pystr "  ")
  /\ well_separated [(pystr "Manzana", pystr "    "); (pystr "Roja", pystr " ")]
  /\ collapse (pystr "  Manzana    Roja ") = pystr "Manzana Roja"
  /\ validate_name (pystr "  Manzana    Roja ") = Ok (pystr "Manzana Roja").
Proof.
  assert (allspace (pystr "  ")) as Hl by (repeat constructor).
  assert (well_separated [(pystr "Manzana", pystr "    "); (pystr "Roja", pystr " ")])
    as Hw.
  { apply separated_more;
      [split; [discriminate|repeat constructor]|repeat constructor
      |discriminate|discriminate|].
    apply separated_last; [split; [discriminate|repeat constructor]|repeat constructor]. }
  destruct validate_name_checks_raw_then_collapsed as (Hv & Hc & _).
  split; [exact Hl|]. split; [exact Hw|].
  split; [exact (Hc _ _ Hl Hw)|].
  exact (eq_trans (Hv (pystr "  Manzana    Roja ")) eq_refl).
Defined.

Section PriceClaims.
Local Open Scope Z_scope.

Lemma Dcompare_antisym a b : Dcompare b a = CompOpp (Dcompare a b).
Proof. unfold Dcompare. rewrite (Z.min_comm (exp b)). apply Z.compare_antisym. Qed.

Lemma Dltb_not_Dleb a b : Dltb b a = negb (Dleb a b).
Proof. unfold Dltb, Dleb. rewrite Dcompare_antisym. by destruct (Dcompare a b). Qed.

Lemma rounds_half_up_nonpos d c : coef d <= 0 -> rounds_half_up d c -> c <= 0.
Proof.
  unfold rounds_half_up, rescale_down. cbn zeta. intros Hd [[->|Hs] _]; [done|].
  assert (0 < 10 ^ (exp d - Z.min (exp d) (-2))) by (apply pow10_pos; lia).
  assert (Z.sgn c <= 0) by (rewrite Hs; nia). lia.
Qed.

(** What [validate_price] returns on a decimal not above 1,000,000, in
    terms of its rounding [c]. *)
Lemma validate_price_rounds d c :
  Dleb d Decimal_1000000 = true -> rounds_half_up d c ->
  validate_price (AsDecimal d) =
    if c <=? 0 then Err ValidationError else Ok (Dec c (-2)).
Proof.
  intros Hle Hc. unfold validate_price, Field_precio. rewrite Hle.
  destruct (Dltb Decimal_0 d) eqn:Hpos; cbn [andb and_then].
  - destruct (quantize_in_range d Hpos Hle) as (c0 & Hq & _).
    pose proof (quantize_rounds _ _ Hq) as [_ Hc0]. cbn [coef] in Hc0.
    rewrite (rounds_half_up_unique _ _ _ Hc Hc0).
    unfold validar_precio. by rewrite Hq, Dleb_0.
  - rewrite Dltb_0 in Hpos. apply Z.ltb_ge in Hpos.
    pose proof (rounds_half_up_nonpos _ _ Hpos Hc).
    by destruct (Z.leb_spec c 0); [|lia].
Qed.

(** Every decimal has a rounding to hundredths. *)
Lemma rounds_half_up_total d : exists c, rounds_half_up d c.
Proof.
  unfold rounds_half_up. cbn zeta.
  set (x := rescale_down _ d). set (u := 10 ^ _).
  assert (0 < u) as Hu by (apply pow10_pos; lia).
  destruct (div_half_up_abs x u Hu) as (Ha & Hs & Hb). cbn zeta in *.
  exists (div_half_up x u). rewrite Ha. split; [done|lia].
Qed.

(** C3. [validate_price] rejects what is no decimal; it rejects a decimal
    above 1,000,000 at the declared constraint, before any rounding
    (1000000.004 is rejected although it rounds to 1000000.00); every
    other decimal [d] is judged on its rounding [c] to hundredths, half
    up: rejected when [c <= 0], otherwise accepted as [c] hundredths. *)
Theorem validate_price_bound_then_round :
  validate_price NotDecimal = Err ValidationError
  /\ (forall d, Dltb Decimal_1000000 d = true ->
        Field_precio (AsDecimal d) = Err ValidationError
        /\ validate_price (AsDecimal d) = Err ValidationError)
  /\ (validate_price (AsDecimal (Dec 1000000004 (-3))) = Err ValidationError
      /\ quantize (Dec 1000000004 (-3)) Decimal_0_01 = Some (Dec 100000000 (-2))
      /\ Dleb (Dec 100000000 (-2)) Decimal_1000000 = true)
  /\ (forall d c, Dleb d Decimal_1000000 = true -> rounds_half_up d c ->
        validate_price (AsDecimal d) =
          if c <=? 0 then Err ValidationError else Ok (Dec c (-2))).
Proof.
  split; [done|]. split; [|split; [by vm_compute|apply validate_price_rounds]].
  intros d Hd. rewrite Dltb_not_Dleb in Hd. apply negb_true_iff in Hd.
  unfold validate_price, Field_precio. rewrite Hd, andb_false_r. done.
Qed.
End PriceClaims.

(** The price 2.005 rounds to 201 hundredths, and 1,000,000 is within the
    bound: the two hypotheses of C3 are met. *)
Lemma validate_price_bound_then_round_witness :
  (Dltb Decimal_1000000 (Dec 1000001 0) = true
   /\ validate_price (AsDecimal (Dec 1000001 0)) = Err ValidationError)
  /\ (Dleb (Dec 2005 (-3)) Decimal_1000000 = true
      /\ rounds_half_up (Dec 2005 (-3)) 201
      /\ validate_price (AsDecimal (Dec 2005 (-3))) = Ok (Dec 201 (-2))).
Proof.
  destruct validate_price_bound_then_round as (_ & Hhigh & _ & Hround).
  assert (Dltb Decimal_1000000 (Dec 1000001 0) = true) as H1 by reflexivity.
  assert (Dleb (Dec 2005 (-3)) Decimal_1000000 = true) as H2 by reflexivity.
  assert (rounds_half_up (Dec 2005 (-3)) 201) as H3.
  { unfold rounds_half_up. vm_compute. intuition congruence. }
  split; [split; [exact H1|exact (proj2 (Hhigh _ H1))]|].
  split; [exact H2|split; [exact H3|exact (Hround _ _ H2 H3)]].
Defined.

(** C5. [validate_categories] rejects the empty list and a list of more
    than 10 entries; it rejects a list with an entry whose normal form
    ([c_norm]: trimmed, lower-cased, whitespace collapsed, accents
    stripped) is not one of the ten allowed categories; otherwise it
    returns the normal forms, each once, at the place of its first
    occurrence. The normal form is stated on Latin-1 text laid out as
    words and whitespace: whatever whitespace is around and between the
    words, and whatever the case and the accents of their letters, it is
    the plain lower-case words with one space between a word and the
    next. So "Lácteo", " ORGÁNICO " and "orgánico" are accepted. *)
Theorem validate_categories_normalizes_and_dedups (ucd : unicodedata) :
  (forall raw,
     validate_categories ucd raw =
       if (length raw =? 0)%nat || (10 <? length raw)%nat then Err ValidationError
       else if existsb (fun c => negb (bool_decide (c_norm ucd c ∈ CATEGORIAS_PERMITIDAS))) raw
            then Err ValidationError
            else Ok (first_occurrences (map (c_norm ucd) raw)))
  /\ (forall l : list str, NoDup (first_occurrences l)
                           /\ (forall x, x ∈ first_occurrences l <-> x ∈ l)
                           /\ first_occurrences l `sublist_of` l)
  /\ elements CATEGORIAS_PERMITIDAS ≡ₚ
       map pystr [ "fruta"; "verdura"; "grano"; "legumbre"; "lacteo"; "carnico";
                   "procesado"; "organico"; "bebida"; "especia" ]%string
  /\ validate_categories ucd (map pystr ["Fruta"; "FRUTA "; "verdura"]%string)
     = Ok (map pystr ["fruta"; "verdura"]%string)
  /\ (forall lead wgs kgs,
        allspace lead -> well_separated wgs ->
        forallb latin1 (layout lead wgs) = true ->
        variants_of wgs kgs ->
        c_norm ucd (layout lead wgs) = layout [] (single_spaced kgs))
  /\ c_norm ucd (pystr "  Ve  r DÚRA ") = pystr "ve r dura"
  /\ validate_categories ucd
       (map pystr ["Lácteo"; " ORGÁNICO "; "lacteo"; "Cárnico"; "orgánico"]%string)
     = Ok (map pystr ["lacteo"; "organico"; "carnico"]%string).
Proof.
  split; [|split; [|split; [|split; [|split; [|split]]]]].
  - intros raw. rewrite validate_categories_spec.
    destruct raw as [|c raw]; [done|].
    change (length (c :: raw) =? 0)%nat with false.
    change (1 <=? length (c :: raw))%nat with true. cbn [orb andb].
    rewrite Nat.ltb_antisym. destruct (length (c :: raw) <=? 10)%nat; [|done].
    cbn [negb andb].
    assert (existsb (fun c0 => negb (bool_decide (c_norm ucd c0 ∈ CATEGORIAS_PERMITIDAS)))
              (c :: raw)
            = negb (forallb (fun c0 => allowed (c_norm ucd c0)) (c :: raw))) as ->.
    { generalize (c :: raw). intros l. induction l as [|a l IH]; [done|].
      cbn [existsb forallb]. rewrite IH, negb_andb. done. }
    by destruct (forallb _ (c :: raw)).
  - intros l. split; [apply first_occurrences_NoDup|].
    split; [intros x; apply first_occurrences_elem|].
    induction l as [|a l IH]; [done|]. cbn [first_occurrences].
    apply sublist_skip. etrans; [|exact IH].
    generalize (first_occurrences l). intros m. clear.
    induction m as [|b m IH]; [done|]. simpl.
    destruct (negb _); [by apply sublist_skip|by apply sublist_cons].
  - unfold CATEGORIAS_PERMITIDAS. apply elements_list_to_set.
    refine (bool_decide_unpack _ _). by vm_compute.
  - rewrite validate_categories_spec. by vm_compute.
  - apply c_norm_layout.
  - by vm_compute.
  - rewrite validate_categories_spec. by vm_compute.
Qed.

(** C5 on " ORGÁNICO  ": a space, then "ORGÁNICO" followed by two
    spaces, each letter a variant of the letter of "organico" at its
    place. *)
Lemma validate_categories_normalizes_and_dedups_witness :
  allspace (pystr " ")
  /\ well_separated [(pystr "ORGÁNICO", pystr "  ")]
  /\ forallb latin1 (pystr " ORGÁNICO  ") = true
  /\ variants_of [(pystr "ORGÁNICO", pystr "  ")] [(pystr "organico", [])]
  /\ c_norm ucd_latin1 (pystr " ORGÁNICO  ") = pystr "organico".
Proof.
  assert (allspace (pystr " ")) as Hl by (repeat constructor).
  assert (well_separated [(pystr "ORGÁNICO", pystr "  ")]) as Hw.
  { apply separated_last; [split; [discriminate|repeat constructor]|repeat constructor]. }
  assert (forallb latin1 (layout (pystr " ") [(pystr "ORGÁNICO", pystr "  ")]) = true)
    as Hlat by reflexivity.
  assert (variants_of [(pystr "ORGÁNICO", pystr "  ")] [(pystr "organico", [])]) as Hv.
  { constructor; [|constructor]. repeat (constructor; [variant_of_tac|]). constructor. }
  split; [exact Hl|]. split; [exact Hw|]. split; [exact Hlat|]. split; [exact Hv|].
  exact (proj1 (proj2 (proj2 (proj2 (proj2
           (validate_categories_normalizes_and_dedups ucd_latin1)))))
           _ _ _ Hl Hw Hlat Hv).
Defined.

(** ** Listing *)

Lemma slice_page {A} (l : list A) (offset limit : Z) :
  (0 <= offset)%Z -> (0 <= limit)%Z ->
  slice l offset (offset + limit) = take (Z.to_nat limit) (drop (Z.to_nat offset) l).
Proof.
  intros Ho Hl. unfold slice, slice_index.
  destruct (Z.ltb_spec offset 0); [lia|].
  destruct (Z.ltb_spec (offset + limit) 0); [lia|].
  destruct (Z.le_gt_cases (Z.of_nat (length l)) offset) as [Hout|Hin].
  - rewrite !Z.min_r by lia. rewrite Z.sub_diag. change (Z.to_nat 0) with 0%nat.
    rewrite take_0, (drop_ge l (Z.to_nat offset)) by lia. by rewrite take_nil.
  - rewrite (Z.min_l offset) by lia.
    destruct (Z.le_gt_cases (offset + limit) (Z.of_nat (length l))).
    + rewrite Z.min_l by lia. f_equal. lia.
    + rewrite Z.min_r by lia. rewrite !take_ge; [done| |]; rewrite length_drop; lia.
Qed.

Lemma filter_all {A} (l : list A) : List.filter (fun _ => true) l = l.
Proof. induction l; simpl; congruence. Qed.

Lemma filter_option {A B} (o : option B) (f : B -> A -> bool) (l : list A) :
  match o with Some b => List.filter (f b) l | None => l end
  = List.filter (fun a => match o with Some b => f b a | None => true end) l.
Proof. destruct o; [done|]. by rewrite filter_all. Qed.

Lemma listar_eq ucd q categoria min_precio max_precio limit offset self :
  listar ucd q categoria min_precio max_precio limit offset self =
    let filtered := List.filter (survives ucd q categoria min_precio max_precio)
                      (dict_values (_items self)) in
    (Ok (slice filtered offset (offset + limit), Z.of_nat (length filtered)), self).
Proof.
  unfold listar, bind, get_self, ret. cbn zeta.
  set (datos := dict_values (_items self)).
  assert (forall f0 f1 (l : list ProductoOut),
            match max_precio with
            | Some m => List.filter (fun p => Dleb (precio (campos p)) m)
                          (match min_precio with
                           | Some m' => List.filter (fun p => Dleb m' (precio (campos p)))
                                          (List.filter f1 (List.filter f0 l))
                           | None => List.filter f1 (List.filter f0 l)
                           end)
            | None => match min_precio with
                      | Some m' => List.filter (fun p => Dleb m' (precio (campos p)))
                                     (List.filter f1 (List.filter f0 l))
                      | None => List.filter f1 (List.filter f0 l)
                      end
            end
            = List.filter (fun p => f0 p && f1 p
                             && match min_precio with
                                | Some m => Dleb m (precio (campos p)) | None => true end
                             && match max_precio with
                                | Some m => Dleb (precio (campos p)) m | None => true end) l)
    as Hprices.
  { intros f0 f1 l. destruct max_precio, min_precio; rewrite ?filter_twice;
      apply filter_ext; intros p; destruct (f0 p), (f1 p); cbn;
      by rewrite ?andb_true_r. }
  assert (forall l : list ProductoOut, l = List.filter (fun _ => true) l) as Hall
    by (intros; by rewrite filter_all).
  destruct q as [[|c0 q]|], categoria as [[|c1 categoria]|];
    unfold survives; cbn iota;
    first [ rewrite <- Hprices; reflexivity
          | rewrite <- Hprices; rewrite <- !Hall; reflexivity
          | idtac ].
Qed.

(** C7. For [limit] in 1..100 and [offset >= 0], [listar] returns as
    total the number of products that survive all the filters, and as
    items the products at positions [offset .. offset+limit) of the
    filtered sequence, in the order of the repository; so at most [limit]
    items. The endpoint returns the same page when the query is valid
    and the price range is not inverted. *)
Theorem listar_total_and_page (ucd : unicodedata) (self : RepoProductos)
    (q categoria : option str) (min_precio max_precio : option Decimal)
    (limit offset : Z) :
  (1 <= limit <= 100)%Z -> (0 <= offset)%Z ->
  let filtered := List.filter (survives ucd q categoria min_precio max_precio)
                    (dict_values (_items self)) in
  let page := take (Z.to_nat limit) (drop (Z.to_nat offset) filtered) in
  listar ucd q categoria min_precio max_precio limit offset self
    = (Ok (page, Z.of_nat (length filtered)), self)
  /\ (Z.of_nat (length page) <= limit)%Z
  /\ (query_ok q min_precio max_precio limit offset = true ->
      match min_precio, max_precio with
      | Some lo, Some hi => Dltb hi lo = false
      | _, _ => True
      end ->
      listar_productos ucd q categoria min_precio max_precio limit offset self
        = (Ok {| total := Z.of_nat (length filtered); items := page |}, self)).
Proof.
  intros Hlim Hoff filtered page.
  assert (listar ucd q categoria min_precio max_precio limit offset self
          = (Ok (page, Z.of_nat (length filtered)), self)) as Hl.
  { rewrite listar_eq. cbn zeta. fold filtered. by rewrite slice_page by lia. }
  split; [done|]. split.
  - unfold page. rewrite length_take. lia.
  - intros Hq Hrange. unfold listar_productos. rewrite Hq. cbn [negb].
    unfold bind at 1.
    assert (match min_precio, max_precio with
            | Some lo, Some hi => if Dltb hi lo then raise InvalidRange else ret tt
            | _, _ => ret tt
            end self = (Ok tt, self)) as ->.
    { destruct min_precio, max_precio; try done. by rewrite Hrange. }
    unfold bind. by rewrite Hl.
Qed.

(** The first page of size 1 of the two products, unfiltered. *)
Lemma listar_total_and_page_witness :
  ((1 <= 1 <= 100)%Z /\ (0 <= 0)%Z)
  /\ exists p, listar ucd_latin1 None None None None 1 0 (dos_productos ucd_latin1)
               = (Ok ([p], 2%Z), dos_productos ucd_latin1)
               /\ nombre (campos p) = pystr "Manzana Roja".
Proof.
  assert ((1 <= 1 <= 100)%Z) as H1 by lia.
  assert ((0 <= 0)%Z) as H2 by lia. split; [done|].
  pose proof (listar_total_and_page ucd_latin1 (dos_productos ucd_latin1)
                None None None None 1 0 H1 H2) as (Hl & _).
  eexists. split; [exact Hl|]. by vm_compute.
Defined.

(** ** Stored prices *)

Section StoredPrice.
Context (ucd : unicodedata).
Local Open Scope Z_scope.

Lemma validate_price_Ok raw q :
  validate_price raw = Ok q ->
  exists d, raw = AsDecimal d /\ exp q = -2 /\ rounds_half_up d (coef q)
            /\ 0 < coef q <= 100000000.
Proof.
  unfold validate_price, Field_precio. destruct raw as [d|]; [|done].
  destruct (Dltb Decimal_0 d) eqn:Hpos; [|done].
  destruct (Dleb d Decimal_1000000) eqn:Hle; [|done]. cbn.
  destruct (quantize_in_range d Hpos Hle) as (c & Hq & Hc).
  pose proof (quantize_rounds _ _ Hq) as [_ Hr]. cbn [coef] in Hr.
  unfold validar_precio. rewrite Hq, Dleb_0. cbn [coef].
  destruct (Z.leb_spec c 0); [done|]. intros [= <-].
  exists d. cbn [exp coef]. split; [done|]. split; [done|]. split; [done|lia].
Qed.

Lemma ProductoCreate_new_fields data prod :
  ProductoCreate_new ucd data = Ok prod ->
  validate_name (in_nombre data) = Ok (nombre prod)
  /\ validate_price (in_precio data) = Ok (precio prod)
  /\ validate_categories ucd (in_categorias data) = Ok (categorias prod).
Proof.
  unfold ProductoCreate_new.
  destruct (validate_name _) as [n|]; [|done].
  destruct (validate_price _) as [p|]; [|done].
  destruct (validate_categories ucd _) as [cs|]; [|done].
  by intros [= <-].
Qed.

Lemma ProductoCreate_new_price data prod :
  ProductoCreate_new ucd data = Ok prod ->
  exists d, in_precio data = AsDecimal d /\ exp (precio prod) = -2
            /\ rounds_half_up d (coef (precio prod))
            /\ 0 < coef (precio prod) <= 100000000.
Proof. intros (_ & Hp & _)%ProductoCreate_new_fields. by apply validate_price_Ok. Qed.

(** C4. A price accepted by validation is stored with exactly two
    fractional digits, the hundredths being the exact decimal received
    rounded half up: for a product created, for a product replaced,
    and so for every product of a repository reached from the empty
    one. The exact decimal 2.005 is stored as 2.01. *)
Theorem stored_price_two_digits_half_up :
  (forall uuid4 data self item self',
      crear_producto ucd uuid4 data self = (Ok item, self') ->
      exists d, in_precio data = AsDecimal d
                /\ dict_get (id item) (_items self') = Some item
                /\ exp (precio (campos item)) = -2
                /\ rounds_half_up d (coef (precio (campos item))))
  /\ (forall rs id_ data item self',
      reemplazar_producto ucd id_ data (run ucd rs repo_vacio) = (Ok item, self') ->
      exists d, in_precio data = AsDecimal d
                /\ dict_get (id item) (_items self') = Some item
                /\ exp (precio (campos item)) = -2
                /\ rounds_half_up d (coef (precio (campos item))))
  /\ (forall rs i p,
      dict_get i (_items (run ucd rs repo_vacio)) = Some p ->
      exp (precio (campos p)) = -2 /\ 0 < coef (precio (campos p)) <= 100000000)
  /\ (exists item self',
      crear_producto ucd 1 (body "Pan integral" (Dec 2005 (-3)) ["grano"]) repo_vacio
        = (Ok item, self')
      /\ dict_get 1%N (_items self') = Some item
      /\ precio (campos item) = Dec 201 (-2)).
Proof.
  split; [|split; [|split]].
  - intros uuid4 data self item self'. rewrite crear_producto_eq.
    destruct (ProductoCreate_new ucd data) as [prod|] eqn:E; [|done].
    destruct (taken _ None self); [done|]. intros [= <- <-].
    destruct (ProductoCreate_new_price _ _ E) as (d & Hd & He & Hr & _).
    exists d. cbn [id campos stored _items]. rewrite dict_get_set.
    by destruct (decide (uuid4 = uuid4)).
  - intros rs id_ data item self'. unfold reemplazar_producto.
    destruct (ProductoCreate_new ucd data) as [prod|] eqn:E; [|done].
    rewrite actualizar_full_eq by (by eapply ProductoCreate_new_idem).
    destruct (dict_get id_ _) as [actual|]; [|done].
    destruct (taken _ (Some id_) _); [done|]. intros [= <- <-].
    destruct (ProductoCreate_new_price _ _ E) as (d & Hd & He & Hr & _).
    exists d. cbn [id campos replaced _items]. rewrite dict_get_set.
    by destruct (decide (id_ = id_)).
  - intros rs i p Hp.
    destruct (run_inv ucd rs repo_vacio (repo_vacio_inv ucd)) as [_ _ Hv _].
    destruct (ProductoCreate_new_price _ _ (Hv _ _ Hp)) as (d & _ & He & _ & Hc).
    done.
  - rewrite crear_producto_eq. by vm_compute; eauto.
Qed.
End StoredPrice.

(** Creating "Pan integral" at 2.005 in the empty repository. *)
Lemma stored_price_two_digits_half_up_witness :
  exists item self',
    crear_producto ucd_latin1 7 (body "Pan integral" (Dec 2005 (-3)) ["grano"]) repo_vacio
      = (Ok item, self')
    /\ dict_get (id item) (_items self') = Some item
    /\ precio (campos item) = Dec 201 (-2).
Proof.
  destruct (crear_producto ucd_latin1 7 (body "Pan integral" (Dec 2005 (-3)) ["grano"])
              repo_vacio) as [[item|e] self'] eqn:E; [|by vm_compute in E].
  destruct (proj1 (stored_price_two_digits_half_up ucd_latin1) _ _ _ _ _ E)
    as (d & Hd & Hget & He & Hr).
  exists item, self'. split; [done|]. split; [done|].
  vm_compute in E. by injection E as <- <-.
Defined.

(** ** Names in the index *)

Section IndexClaims.
Context (ucd : unicodedata).

Lemma taken_stored_name rs i p n :
  dict_get i (_items (run ucd rs repo_vacio)) = Some p ->
  n = lower ucd (nombre (campos p)) ->
  taken n None (run ucd rs repo_vacio) = true.
Proof.
  intros Hp ->.
  destruct (run_inv ucd rs repo_vacio (repo_vacio_inv ucd)) as [_ _ _ Hx].
  unfold taken. by rewrite (Hx _ _ Hp).
Qed.

(** C6. The uniqueness check folds case and keeps accents. "Café" and
    "Cafe" are both created, one after the other, and are both in the
    repository afterwards; and in any repository reached from the empty
    one, creating a product whose lower-cased name is that of a stored
    product fails with [DuplicateName] and changes nothing, as
    "manzana roja" does after "Manzana Roja". *)
Theorem uniqueness_folds_case_keeps_accents :
  (exists p1 self1 p2 self2,
      crear_producto ucd 1 (body "Café" (Dec 10 0) ["bebida"]) repo_vacio
        = (Ok p1, self1)
      /\ crear_producto ucd 2 (body "Cafe" (Dec 5 0) ["bebida"]) self1
         = (Ok p2, self2)
      /\ self2 = run ucd [ POST 1 (body "Café" (Dec 10 0) ["bebida"]);
                           POST 2 (body "Cafe" (Dec 5 0) ["bebida"]) ] repo_vacio
      /\ dict_get 1%N (_items self2) = Some p1
      /\ dict_get 2%N (_items self2) = Some p2
      /\ nombre (campos p1) = pystr "Café"
      /\ nombre (campos p2) = pystr "Cafe")
  /\ (forall rs i p uuid4 data prod,
      dict_get i (_items (run ucd rs repo_vacio)) = Some p ->
      ProductoCreate_new ucd data = Ok prod ->
      lower ucd (nombre prod) = lower ucd (nombre (campos p)) ->
      crear_producto ucd uuid4 data (run ucd rs repo_vacio)
        = (Err DuplicateName, run ucd rs repo_vacio))
  /\ (forall uuid4,
      crear_producto ucd uuid4 (body "manzana roja" (Dec 5 0) ["fruta"])
        (run ucd [POST 1 (body "Manzana Roja" (Dec 10 0) ["fruta"])] repo_vacio)
      = (Err DuplicateName,
         run ucd [POST 1 (body "Manzana Roja" (Dec 10 0) ["fruta"])] repo_vacio)).
Proof.
  split; [|split].
  - do 4 eexists. split; [rewrite crear_producto_eq; by vm_compute|].
    split; [rewrite crear_producto_eq; by vm_compute|].
    unfold run, serve, after; cbn [foldl]. rewrite !crear_producto_eq.
    by vm_compute.
  - intros rs i p uuid4 data prod Hp Hprod Hn. rewrite crear_producto_eq, Hprod.
    by rewrite (taken_stored_name rs i p).
  - intros uuid4. unfold run, serve, after; cbn [foldl].
    rewrite !crear_producto_eq. by vm_compute.
Qed.

(** ** Updates *)

Lemma validated_fields prod :
  validated ucd prod ->
  validate_name (nombre prod) = Ok (nombre prod)
  /\ validate_price (AsDecimal (precio prod)) = Ok (precio prod)
  /\ validate_categories ucd (categorias prod) = Ok (categorias prod).
Proof. apply ProductoCreate_new_fields. Qed.

Lemma actualizar_full_keeps_id id_ prod self p :
  repo_inv ucd self -> validated ucd prod ->
  dict_get id_ (_items self) = Some p ->
  exists p', dict_get id_ (_items (after (actualizar_full ucd id_ prod) self)) = Some p'
             /\ id p' = id p.
Proof.
  intros Hinv Hv Hp. pose proof (inv_id _ _ Hinv _ _ Hp) as Hid.
  unfold after. rewrite actualizar_full_eq, Hp by done.
  destruct (taken _ (Some id_) self); [by exists p|].
  exists {| id := id_; campos := prod |}. cbn [replaced _items id snd].
  rewrite dict_get_set. by destruct (decide (id_ = id_)).
Qed.

(** C8. In a repository reached from the empty one, a patch that sends
    only a price leaves the name, the categories and the id of the
    product as they were and stores the validated price; a price that
    fails validation changes nothing. After a replace or a patch of an
    existing record, whatever the body, the record filed under that id
    has the id it had before. *)
Theorem patch_price_only_and_id_stable (rs : list request) :
  let self := run ucd rs repo_vacio in
  (forall id_ p raw q,
      dict_get id_ (_items self) = Some p ->
      validate_price raw = Ok q ->
      let p' := {| id := id p;
                   campos := {| nombre := nombre (campos p); precio := q;
                                categorias := categorias (campos p) |} |} in
      exists self',
        actualizar_parcial_producto ucd id_ (solo_precio raw) self = (Ok p', self')
        /\ dict_get id_ (_items self') = Some p')
  /\ (forall id_ raw e,
      validate_price raw = Err e ->
      actualizar_parcial_producto ucd id_ (solo_precio raw) self
        = (Err ValidationError, self))
  /\ (forall id_ p data,
      dict_get id_ (_items self) = Some p ->
      exists p',
        dict_get id_ (_items (after (reemplazar_producto ucd id_ data) self)) = Some p'
        /\ id p' = id p)
  /\ (forall id_ p data,
      dict_get id_ (_items self) = Some p ->
      exists p',
        dict_get id_ (_items (after (actualizar_parcial_producto ucd id_ data) self))
          = Some p'
        /\ id p' = id p).
Proof.
  intros self.
  pose proof (run_inv ucd rs repo_vacio (repo_vacio_inv ucd)) as Hinv.
  fold self in Hinv. split; [|split; [|split]].
  - intros id_ p raw q Hp Hq p'.
    destruct Hinv as [Hk Hi Hv Hx].
    pose proof (Hi _ _ Hp) as Hid. pose proof (Hx _ _ Hp) as Hidx.
    destruct (validated_fields _ (Hv _ _ Hp)) as (Hn & _ & Hc).
    unfold actualizar_parcial_producto, ProductoUpdate_new, solo_precio.
    cbn [upd_nombre upd_precio upd_categorias campo_validate and_then].
    rewrite Hq. cbn [and_then nothing_set nombre_opt precio_opt categorias_opt].
    rewrite actualizar_partial_eq, Hp. unfold candidato_de.
    cbn [nombre_opt precio_opt categorias_opt updated].
    assert (ProductoCreate_new ucd
              {| in_nombre := nombre (campos p); in_precio := AsDecimal q;
                 in_categorias := categorias (campos p) |} = Ok (campos p')) as Hnew.
    { unfold ProductoCreate_new. cbn [in_nombre in_precio in_categorias].
      by rewrite Hn, (validate_price_idem _ _ Hq), Hc. }
    rewrite Hnew. cbn [campos nombre p'].
    rewrite bool_decide_eq_false_2 by (by intros H; apply H). cbn [andb].
    rewrite actualizar_full_eq by (by eapply ProductoCreate_new_idem).
    rewrite Hp. unfold taken. cbn [nombre]. rewrite Hidx.
    rewrite bool_decide_eq_true_2 by done. cbn [negb].
    unfold p'. rewrite Hid. eexists. split; [done|]. cbn [replaced _items].
    rewrite dict_get_set. by destruct (decide (id_ = id_)).
  - intros id_ raw e He.
    unfold actualizar_parcial_producto, ProductoUpdate_new, solo_precio.
    cbn [upd_nombre upd_precio upd_categorias campo_validate and_then].
    by rewrite He.
  - intros id_ p data Hp. unfold reemplazar_producto.
    destruct (ProductoCreate_new ucd data) as [prod|] eqn:E; [|by exists p].
    apply actualizar_full_keeps_id; [done| |done]. by eapply ProductoCreate_new_idem.
  - intros id_ p data Hp. unfold actualizar_parcial_producto.
    destruct (ProductoUpdate_new ucd data) as [payload|]; [|by exists p].
    destruct (nothing_set payload); [by exists p|].
    unfold after. rewrite actualizar_partial_eq, Hp.
    destruct (candidato_de ucd p payload) as [cand|] eqn:Hc; [|by exists p].
    destruct (_ && _); [by exists p|].
    apply actualizar_full_keeps_id; [done| |done]. by eapply candidato_de_validated.
Qed.

(** ** Deletion *)

(** C9. [delete] fails with [NotFound] on an id that is not stored. On
    a stored id it removes the record, and removes the index entry of
    its folded name when, and only when, that entry points at this id.
    In a repository reached from the empty one, after deleting a stored
    product, creating a product with the same folded name succeeds. *)
Theorem delete_releases_name :
  (forall self id_,
      dict_get id_ (_items self) = None ->
      eliminar_producto ucd id_ self = (Err NotFound, self))
  /\ (forall self id_ p,
      dict_get id_ (_items self) = Some p ->
      exists self',
        eliminar_producto ucd id_ self = (Ok tt, self')
        /\ _items self' = dict_del id_ (_items self)
        /\ dict_get id_ (_items self') = None
        /\ _name_to_id self' =
             if bool_decide (_name_to_id self !! lower ucd (nombre (campos p)) = Some id_)
             then delete (lower ucd (nombre (campos p))) (_name_to_id self)
             else _name_to_id self)
  /\ (forall rs id_ p uuid4 data prod,
      dict_get id_ (_items (run ucd rs repo_vacio)) = Some p ->
      ProductoCreate_new ucd data = Ok prod ->
      lower ucd (nombre prod) = lower ucd (nombre (campos p)) ->
      exists self1 self2,
        eliminar_producto ucd id_ (run ucd rs repo_vacio) = (Ok tt, self1)
        /\ crear_producto ucd uuid4 data self1
           = (Ok {| id := uuid4; campos := prod |}, self2)
        /\ dict_get uuid4 (_items self2) = Some {| id := uuid4; campos := prod |}).
Proof.
  split; [|split].
  - intros self id_ Hnone. unfold eliminar_producto. by rewrite borrar_eq, Hnone.
  - intros self id_ p Hp. exists (removed ucd id_ p self).
    unfold eliminar_producto. rewrite borrar_eq, Hp.
    split; [done|]. split; [done|]. split; [|done].
    cbn [removed _items]. rewrite dict_get_del. by destruct (decide (id_ = id_)).
  - intros rs id_ p uuid4 data prod Hp Hprod Hn.
    pose proof (run_inv ucd rs repo_vacio (repo_vacio_inv ucd)) as [_ _ _ Hx].
    pose proof (Hx _ _ Hp) as Hidx.
    exists (removed ucd id_ p (run ucd rs repo_vacio)). eexists.
    unfold eliminar_producto. rewrite borrar_eq, Hp. split; [done|].
    rewrite crear_producto_eq, Hprod.
    assert (taken (lower ucd (nombre prod)) None
              (removed ucd id_ p (run ucd rs repo_vacio)) = false) as ->.
    { unfold taken, removed. cbn [_name_to_id].
      rewrite (bool_decide_eq_true_2 _ Hidx), Hn. by rewrite lookup_delete_eq. }
    split; [done|]. cbn [stored _items id]. rewrite dict_get_set.
    by destruct (decide (uuid4 = uuid4)).
Qed.

(** ** The index *)

(** C10. In a repository reached from the empty one, [uuid4] returning
    each time an identifier no stored product has, the index holds
    exactly the folded names of the stored products, each pointing at
    its product: an entry [k -> i] exists if and only if the product
    stored under [i] has folded name [k]. So the product under [i] has
    one entry, under its own folded name. *)
Theorem name_index_exact (rs : list request) :
  fresh_uuids ucd rs repo_vacio = true ->
  let self := run ucd rs repo_vacio in
  (forall k i,
      _name_to_id self !! k = Some i <->
      exists p, dict_get i (_items self) = Some p /\ lower ucd (nombre (campos p)) = k)
  /\ (forall i p, dict_get i (_items self) = Some p ->
      forall k, _name_to_id self !! k = Some i <-> k = lower ucd (nombre (campos p)))
  /\ NoDup (dict_keys (_items self)).
Proof.
  intros Hfresh self.
  pose proof (run_inv ucd rs repo_vacio (repo_vacio_inv ucd)) as Hinv.
  pose proof (run_sound ucd rs repo_vacio (repo_vacio_inv ucd)
                (repo_vacio_sound ucd) Hfresh) as Hs.
  fold self in Hinv, Hs. destruct Hinv as [Hk Hi Hv Hx].
  split; [|split; [|done]].
  - intros k i. split; [apply Hs|]. intros (p & Hp & <-). by apply Hx.
  - intros i p Hp k. split.
    + intros (p' & Hp' & <-)%Hs. congruence.
    + intros ->. by apply Hx.
Qed.
End IndexClaims.

(** The hypotheses of the second part of C6 are met by "MANZANA ROJA"
    sent to the repository of the two products. *)
Lemma uniqueness_folds_case_keeps_accents_witness :
  exists p prod,
    dict_get 1%N (_items (dos_productos ucd_latin1)) = Some p
    /\ ProductoCreate_new ucd_latin1 (body "MANZANA  ROJA" (Dec 3 0) ["fruta"]) = Ok prod
    /\ lower ucd_latin1 (nombre prod) = lower ucd_latin1 (nombre (campos p))
    /\ crear_producto ucd_latin1 9 (body "MANZANA  ROJA" (Dec 3 0) ["fruta"])
         (dos_productos ucd_latin1)
       = (Err DuplicateName, dos_productos ucd_latin1).
Proof.
  destruct (dict_get 1%N (_items (dos_productos ucd_latin1))) as [p|] eqn:Hp;
    [|by vm_compute in Hp].
  destruct (ProductoCreate_new ucd_latin1 (body "MANZANA  ROJA" (Dec 3 0) ["fruta"]))
    as [prod|] eqn:Hprod; [|by vm_compute in Hprod].
  assert (lower ucd_latin1 (nombre prod) = lower ucd_latin1 (nombre (campos p))) as Hn.
  { vm_compute in Hp, Hprod. injection Hp as <-. injection Hprod as <-. reflexivity. }
  exists p, prod. split; [reflexivity|]. split; [reflexivity|]. split; [exact Hn|].
  exact (proj1 (proj2 (uniqueness_folds_case_keeps_accents ucd_latin1))
           [ POST 1 (body "Manzana Roja" (Dec 10 0) ["fruta"]);
             POST 2 (body "Pera" (Dec 75 (-1)) ["Fruta"; "orgánico"]) ]
           1 p 9 _ prod Hp Hprod Hn).
Defined.

(** The price of "Pera" patched to 12.50. *)
Lemma patch_price_only_and_id_stable_witness :
  exists p p' self',
    dict_get 2%N (_items (dos_productos ucd_latin1)) = Some p
    /\ validate_price (AsDecimal (Dec 125 (-1))) = Ok (Dec 1250 (-2))
    /\ actualizar_parcial_producto ucd_latin1 2 (solo_precio (AsDecimal (Dec 125 (-1))))
         (dos_productos ucd_latin1) = (Ok p', self')
    /\ dict_get 2%N (_items self') = Some p'
    /\ nombre (campos p') = nombre (campos p)
    /\ categorias (campos p') = categorias (campos p)
    /\ id p' = id p
    /\ precio (campos p') = Dec 1250 (-2).
Proof.
  destruct (dict_get 2%N (_items (dos_productos ucd_latin1))) as [p|] eqn:Hp;
    [|by vm_compute in Hp].
  assert (validate_price (AsDecimal (Dec 125 (-1))) = Ok (Dec 1250 (-2))) as Hq
    by reflexivity.
  destruct (proj1 (patch_price_only_and_id_stable ucd_latin1
                     [ POST 1 (body "Manzana Roja" (Dec 10 0) ["fruta"]);
                       POST 2 (body "Pera" (Dec 75 (-1)) ["Fruta"; "orgánico"]) ])
              2%N p _ _ Hp Hq) as (self' & Hpatch & Hget).
  eexists p, _, self'. split; [reflexivity|]. split; [exact Hq|].
  split; [exact Hpatch|]. split; [exact Hget|]. repeat split; reflexivity.
Defined.

(** "Pera" deleted, then created again in capitals. *)
Lemma delete_releases_name_witness :
  exists p prod self1 self2,
    dict_get 2%N (_items (dos_productos ucd_latin1)) = Some p
    /\ ProductoCreate_new ucd_latin1 (body "PERA" (Dec 8 0) ["fruta"]) = Ok prod
    /\ lower ucd_latin1 (nombre prod) = lower ucd_latin1 (nombre (campos p))
    /\ eliminar_producto ucd_latin1 2 (dos_productos ucd_latin1) = (Ok tt, self1)
    /\ crear_producto ucd_latin1 3 (body "PERA" (Dec 8 0) ["fruta"]) self1
       = (Ok {| id := 3; campos := prod |}, self2).
Proof.
  destruct (dict_get 2%N (_items (dos_productos ucd_latin1))) as [p|] eqn:Hp;
    [|by vm_compute in Hp].
  destruct (ProductoCreate_new ucd_latin1 (body "PERA" (Dec 8 0) ["fruta"]))
    as [prod|] eqn:Hprod; [|by vm_compute in Hprod].
  assert (lower ucd_latin1 (nombre prod) = lower ucd_latin1 (nombre (campos p))) as Hn.
  { vm_compute in Hp, Hprod. injection Hp as <-. injection Hprod as <-. reflexivity. }
  destruct (proj2 (proj2 (delete_releases_name ucd_latin1))
              [ POST 1 (body "Manzana Roja" (Dec 10 0) ["fruta"]);
                POST 2 (body "Pera" (Dec 75 (-1)) ["Fruta"; "orgánico"]) ]
              2%N p 3%N _ prod Hp Hprod Hn) as (self1 & self2 & Hdel & Hnew & _).
  exists p, prod, self1, self2. split; [reflexivity|]. split; [reflexivity|].
  split; [exact Hn|]. split; [exact Hdel|exact Hnew].
Defined.

Lemma name_index_exact_witness :
  fresh_uuids ucd_latin1 corrida repo_vacio = true
  /\ (_name_to_id (run ucd_latin1 corrida repo_vacio) !! pystr "manzana verde" = Some 1%N
      <-> exists p, dict_get 1%N (_items (run ucd_latin1 corrida repo_vacio)) = Some p
                    /\ lower ucd_latin1 (nombre (campos p)) = pystr "manzana verde").
Proof.
  assert (fresh_uuids ucd_latin1 corrida repo_vacio = true) as Hf by (by vm_compute).
  split; [exact Hf|].
  exact (proj1 (name_index_exact ucd_latin1 corrida Hf) (pystr "manzana verde") 1%N).
Defined.

(** Why C10 speaks of fresh identifiers: were [uuid4] to return an
    identifier in use, the new product would take the place of the old
    one, whose name would stay in the index. *)
Example stale_entry_on_uuid_collision :
  let self := run ucd_latin1 [ POST 1 (body "Manzana Roja" (Dec 10 0) ["fruta"]);
                               POST 1 (body "Pera" (Dec 7 0) ["fruta"]) ] repo_vacio in
  _name_to_id self !! pystr "manzana roja" = Some 1%N
  /\ (nombre ∘ campos) <$> dict_get 1%N (_items self) = Some (pystr "Pera").
Proof. by vm_compute. Qed.

(** * Further properties of the validators *)

(** X1. A name that [validate_name] returns is in its final form: it passes
    validation again unchanged, trimming and collapsing leave it alone,
    and it satisfies the rules on names. *)
Theorem validate_name_output_stable (raw v : str) :
  validate_name raw = Ok v ->
  validate_name v = Ok v
  /\ collapse v = v /\ strip v = v
  /\ name_rules v = true /\ (3 <= length v <= 80)%nat.
Proof.
  intros H. split; [by eapply validate_name_idem|].
  rewrite validate_name_rules in H.
  destruct ((3 <=? length raw)%nat && (length raw <=? 80)%nat
            && name_rules (collapse raw)) eqn:E; [|done].
  injection H as <-. apply andb_prop in E as [_ E].
  split; [apply collapse_idem|]. split; [apply strip_join, split_words|].
  split; [done|]. unfold name_rules in E.
  do 2 apply andb_prop in E as [E _]. apply andb_prop in E as [E1 E2].
  apply Nat.leb_le in E1, E2. done.
Qed.

(** X1 at work. *)
Lemma validate_name_output_stable_witness :
  validate_name (pystr "  Manzana   Roja ") = Ok (pystr "Manzana Roja")
  /\ validate_name (pystr "Manzana Roja") = Ok (pystr "Manzana Roja")
  /\ strip (pystr "Manzana Roja") = pystr "Manzana Roja".
Proof.
  assert (validate_name (pystr "  Manzana   Roja ") = Ok (pystr "Manzana Roja")) as H
    by reflexivity.
  destruct (validate_name_output_stable _ _ H) as (H1 & _ & H3 & _).
  split; [exact H|]. split; [exact H1|exact H3].
Defined.

Section MorePrices.
Local Open Scope Z_scope.

Lemma rounds_half_up_pos d c :
  rounds_half_up d c -> (0 <? c) = Dleb Decimal_0_005 d.
Proof.
  unfold rounds_half_up, Dleb, Dcompare, rescale_down, Decimal_0_005.
  cbn zeta. cbn [coef exp]. intros [Hs Hb].
  destruct (Z.le_gt_cases (-2) (exp d)) as [He|He].
  - rewrite Z.min_r in Hs, Hb by lia. rewrite Z.min_l by lia.
    replace (-2 - -2) with 0 in Hb by lia. rewrite Z.pow_0_r in Hb.
    change (10 ^ (-3 - -3)) with 1.
    replace (exp d - -3) with ((exp d - -2) + 1) by lia.
    rewrite Z.pow_add_r by lia. change (10 ^ 1) with 10.
    set (x := coef d * 10 ^ (exp d - -2)) in *.
    replace (coef d * (10 ^ (exp d - -2) * 10)) with (10 * x) by (unfold x; ring).
    destruct (Z.compare_spec (5 * 1) (10 * x)); destruct (Z.ltb_spec 0 c);
      try done; lia.
  - rewrite Z.min_l in Hs, Hb by lia. rewrite Z.min_r by lia.
    rewrite Z.sub_diag, Z.pow_0_r, Z.mul_1_r in *.
    replace (-2 - exp d) with ((-3 - exp d) + 1) in Hb by lia.
    rewrite Z.pow_add_r in Hb by lia. change (10 ^ 1) with 10 in Hb.
    assert (0 < 10 ^ (-3 - exp d)) as Hw by (apply pow10_pos; lia).
    set (w := 10 ^ (-3 - exp d)) in *.
    destruct (Z.compare_spec (5 * w) (coef d)); destruct (Z.ltb_spec 0 c);
      try done; nia.
Qed.

(** X2. The prices [validate_price] accepts are exactly the decimals from
    0.005 to 1,000,000: a positive price below half a hundredth is
    rejected, because it rounds to 0.00. An accepted price comes back as
    a whole number of hundredths between 0.01 and 1,000,000.00. *)
Theorem validate_price_accepts_iff (d : Decimal) :
  is_ok (validate_price (AsDecimal d))
    = Dleb Decimal_0_005 d && Dleb d Decimal_1000000
  /\ (forall q, validate_price (AsDecimal d) = Ok q ->
        exp q = -2 /\ 1 <= coef q <= 100000000).
Proof.
  split.
  - destruct (Dleb d Decimal_1000000) eqn:Hle.
    + destruct (rounds_half_up_total d) as [c Hc].
      rewrite (validate_price_rounds d c Hle Hc), andb_true_r.
      rewrite <- (rounds_half_up_pos d c Hc).
      by destruct (Z.leb_spec c 0), (Z.ltb_spec 0 c); try lia.
    + rewrite andb_false_r. unfold validate_price, Field_precio.
      by rewrite Hle, andb_false_r.
  - intros q (d' & _ & He & _ & Hc)%validate_price_Ok. split; [done|lia].
Qed.
End MorePrices.

(** X2 at work. *)
Lemma validate_price_accepts_iff_witness :
  validate_price (AsDecimal (Dec 5 (-3))) = Ok (Dec 1 (-2))
  /\ exp (Dec 1 (-2)) = (-2)%Z
  /\ is_ok (validate_price (AsDecimal (Dec 4999 (-6)))) = false.
Proof.
  assert (validate_price (AsDecimal (Dec 5 (-3))) = Ok (Dec 1 (-2))) as H by reflexivity.
  destruct (validate_price_accepts_iff (Dec 5 (-3))) as [_ Hq].
  destruct (validate_price_accepts_iff (Dec 4999 (-6))) as [Hno _].
  split; [exact H|]. split; [exact (proj1 (Hq _ H))|]. rewrite Hno. reflexivity.
Defined.

(** X3. A list of categories that [validate_categories] returns has 1 to 10
    entries, all allowed, none repeated, with the same members as the
    normal forms of the entries received; and it passes validation again
    unchanged. *)
Theorem validate_categories_output_stable (ucd : unicodedata) (raw cs : list str) :
  validate_categories ucd raw = Ok cs ->
  (1 <= length cs <= 10)%nat
  /\ NoDup cs
  /\ Forall (fun x => x ∈ CATEGORIAS_PERMITIDAS) cs
  /\ (forall x, x ∈ cs <-> x ∈ map (c_norm ucd) raw)
  /\ validate_categories ucd cs = Ok cs.
Proof.
  intros H. pose proof (validate_categories_idem ucd _ _ H) as Hidem.
  rewrite validate_categories_spec in H.
  destruct ((1 <=? length raw)%nat && (length raw <=? 10)%nat
            && forallb (fun c => allowed (c_norm ucd c)) raw) eqn:E; [|done].
  injection H as <-. apply andb_prop in E as [E Hall].
  apply andb_prop in E as [H1 H10]. apply Nat.leb_le in H1, H10.
  pose proof (first_occurrences_length (map (c_norm ucd) raw)) as Hl.
  rewrite length_map in Hl.
  split; [|split; [apply first_occurrences_NoDup|split; [|split; [|done]]]].
  - split; [|lia]. destruct raw; [simpl in H1; lia|]. simpl. lia.
  - apply Forall_forall. intros x Hx.
    apply (proj1 (first_occurrences_elem x _)) in Hx.
    apply list_elem_of_In, in_map_iff in Hx as (c & <- & Hc).
    rewrite forallb_forall in Hall. apply Hall in Hc.
    by apply bool_decide_eq_true in Hc.
  - intros x. apply first_occurrences_elem.
Qed.

(** X3 at work. *)
Lemma validate_categories_output_stable_witness :
  validate_categories ucd_latin1 (map pystr ["Lácteo"; " ORGÁNICO"; "lacteo"]%string)
    = Ok (map pystr ["lacteo"; "organico"]%string)
  /\ validate_categories ucd_latin1 (map pystr ["lacteo"; "organico"]%string)
     = Ok (map pystr ["lacteo"; "organico"]%string).
Proof.
  assert (validate_categories ucd_latin1 (map pystr ["Lácteo"; " ORGÁNICO"; "lacteo"]%string)
          = Ok (map pystr ["lacteo"; "organico"]%string)) as H by (by vm_compute).
  split; [exact H|].
  exact (proj2 (proj2 (proj2 (proj2 (validate_categories_output_stable _ _ _ H))))).
Defined.

(** ** Accent stripping on the characters of a name *)

Lemma name_rest_latin1 c : name_rest c = true -> c < 0x100.
Proof.
  unfold name_rest, name_first, between. rewrite !orb_true_iff, !andb_true_iff.
  rewrite !bool_decide_eq_true, !N.leb_le.
  intros [[[[[_ H]|[_ H]]|H]|[_ H]]|H]; try lia.
  - vm_compute in H. repeat (apply elem_of_cons in H as [->|H]; [lia|]).
    by apply elem_of_nil in H.
  - vm_compute in H. repeat (apply elem_of_cons in H as [->|H]; [lia|]).
    by apply elem_of_nil in H.
Qed.

Lemma name_rest_strips_to_ascii ucd c :
  name_rest c = true -> strips_to_ascii ucd c = true.
Proof.
  intros H.
  assert (forallb (fun c => implb (name_rest c) (strips_to_ascii ucd c))
            (map N.of_nat (seq 0 256)) = true) as Hall by (by vm_compute).
  rewrite forallb_forall in Hall.
  specialize (Hall c (latin1_range c (name_rest_latin1 c H))).
  by rewrite H in Hall.
Qed.

Lemma forallb_weaken {A} (f g : A -> bool) l :
  (forall x, f x = true -> g x = true) -> forallb f l = true -> forallb g l = true.
Proof.
  intros Hfg. rewrite !forallb_forall. auto.
Qed.

Lemma strip_accents_name_chars ucd s :
  forallb name_rest s = true ->
  length (_strip_accents ucd s) = length s
  /\ forallb (fun c => (c <? 0x80) && name_rest c) (_strip_accents ucd s) = true
  /\ _strip_accents ucd (_strip_accents ucd s) = _strip_accents ucd s.
Proof.
  intros Hs.
  assert (forall t, forallb name_rest t = true ->
            _strip_accents ucd t
            = flat_map (fun c => List.filter (fun x => negb (combining ucd x))
                                   (NFKD_latin1 c)) t) as Hflat.
  { intros t Ht. unfold _strip_accents, normalize_NFKD.
    assert (forallb latin1 t = true) as ->.
    { apply forallb_forall. intros c Hc. rewrite forallb_forall in Ht.
      apply N.ltb_lt, name_rest_latin1. auto. }
    clear Ht. induction t as [|c t IH]; [done|]. simpl.
    by rewrite List.filter_app, IH. }
  assert (forall t, forallb name_rest t = true ->
            length (_strip_accents ucd t) = length t
            /\ forallb (fun c => (c <? 0x80) && name_rest c
                          && bool_decide (List.filter (fun x => negb (combining ucd x))
                                            (NFKD_latin1 c) = [c]))
                 (_strip_accents ucd t) = true) as Hone.
  { intros t Ht. rewrite (Hflat t Ht). induction t as [|c t IH]; [done|].
    cbn [forallb] in Ht. apply andb_prop in Ht as [Hc Ht].
    destruct (IH Ht) as [IH1 IH2]. cbn [flat_map].
    pose proof (name_rest_strips_to_ascii ucd c Hc) as Hsa.
    unfold strips_to_ascii in Hsa.
    destruct (List.filter _ (NFKD_latin1 c)) as [|a [|? ?]]; try done.
    cbn [app length forallb]. rewrite IH1, Hsa, IH2. done. }
  destruct (Hone s Hs) as [Hlen Hall]. split; [done|]. split.
  - eapply forallb_weaken; [|exact Hall]. intros c. cbn beta.
    rewrite !andb_true_iff. tauto.
  - set (t := _strip_accents ucd s) in *. rewrite Hflat.
    2:{ eapply forallb_weaken; [|exact Hall]. intros c. cbn beta.
        rewrite !andb_true_iff. tauto. }
    clear -Hall. induction t as [|c t IH]; [done|].
    cbn [forallb] in Hall. apply andb_prop in Hall as [Hc Ht].
    apply andb_prop in Hc as [_ Hc]. apply bool_decide_eq_true in Hc.
    cbn [flat_map]. by rewrite Hc, IH.
Qed.

(** X4. Stripping the accents of a string made of the characters allowed in
    a name gives as many characters, all ASCII and all still allowed in
    a name; stripping again changes nothing. *)
Theorem strip_accents_of_name_is_ascii (ucd : unicodedata) (s : str) :
  forallb name_rest s = true ->
  length (_strip_accents ucd s) = length s
  /\ forallb (fun c => (c <? 0x80) && name_rest c) (_strip_accents ucd s) = true
  /\ _strip_accents ucd (_strip_accents ucd s) = _strip_accents ucd s.
Proof. apply strip_accents_name_chars. Qed.

(** X4 at work. *)
Lemma strip_accents_of_name_is_ascii_witness :
  forallb name_rest (pystr "Ñandú Café") = true
  /\ _strip_accents ucd_latin1 (pystr "Ñandú Café") = pystr "Nandu Cafe"
  /\ _strip_accents ucd_latin1 (_strip_accents ucd_latin1 (pystr "Ñandú Café"))
     = _strip_accents ucd_latin1 (pystr "Ñandú Café").
Proof.
  assert (forallb name_rest (pystr "Ñandú Café") = true) as H by reflexivity.
  split; [exact H|]. split; [reflexivity|].
  exact (proj2 (proj2 (strip_accents_of_name_is_ascii ucd_latin1 _ H))).
Defined.

(** * Further properties of the repository *)

Section MoreDictFacts.
Context {K V : Type} `{EqDecision K}.
Implicit Types (d : list (K * V)) (k : K) (v : V).

Lemma dict_set_fresh k v d : dict_get k d = None -> dict_set k v d = d ++ [(k, v)].
Proof.
  induction d as [|[k0 v0] d IH]; simpl; [done|].
  destruct (decide (k = k0)); [done|]. intros Hd. by rewrite IH.
Qed.

Lemma dict_set_keys k v v0 d :
  dict_get k d = Some v0 -> dict_keys (dict_set k v d) = dict_keys d.
Proof.
  unfold dict_keys. induction d as [|[k0 v1] d IH]; simpl; [done|].
  destruct (decide (k = k0)) as [->|]; [done|]. intros Hd. simpl. by rewrite IH.
Qed.

Lemma dict_del_sublist k d : dict_values (dict_del k d) `sublist_of` dict_values d.
Proof.
  unfold dict_values. induction d as [|[k0 v0] d IH]; simpl; [done|].
  destruct (decide (k = k0)); simpl; [by apply sublist_cons|by apply sublist_skip].
Qed.
End MoreDictFacts.

Section MoreRepoFacts.
Context (ucd : unicodedata).

Lemma obtener_producto_eq id_ self :
  obtener_producto id_ self =
    match dict_get id_ (_items self) with
    | Some p => (Ok p, self)
    | None => (Err NotFound, self)
    end.
Proof.
  unfold obtener_producto, obtener, bind, get_self, ret.
  by destruct (dict_get id_ (_items self)).
Qed.

(** X5. A model built again from its own [model_dump()] is the same model:
    the constructions of [ProductoOut] inside [crear] and
    [actualizar_full], on a validated [ProductoCreate], cannot fail and
    change no field. *)
Theorem model_dump_round_trip (data : ProductoCreate_input) (prod : ProductoCreate)
    (id_ : UUID) :
  ProductoCreate_new ucd data = Ok prod ->
  ProductoCreate_new ucd (model_dump prod) = Ok prod
  /\ ProductoOut_new ucd id_ (model_dump prod) = Ok {| id := id_; campos := prod |}.
Proof.
  intros H%ProductoCreate_new_idem. split; [done|].
  unfold ProductoOut_new. by rewrite H.
Qed.

(** X6. In a repository reached from the empty one every stored product is
    filed under its own id and is a validated model: its name satisfies
    the rules on names and is in collapsed form, and it has 1 to 10
    categories, all allowed and none repeated. *)
Theorem stored_products_are_valid (rs : list request) (i : UUID) (p : ProductoOut) :
  dict_get i (_items (run ucd rs repo_vacio)) = Some p ->
  id p = i
  /\ name_rules (nombre (campos p)) = true
  /\ collapse (nombre (campos p)) = nombre (campos p)
  /\ (1 <= length (categorias (campos p)) <= 10)%nat
  /\ NoDup (categorias (campos p))
  /\ Forall (fun x => x ∈ CATEGORIAS_PERMITIDAS) (categorias (campos p)).
Proof.
  intros Hp.
  destruct (run_inv ucd rs repo_vacio (repo_vacio_inv ucd)) as [_ Hi Hv _].
  split; [by apply Hi|].
  destruct (ProductoCreate_new_fields ucd _ _ (Hv _ _ Hp)) as (Hn & _ & Hc).
  cbn [model_dump in_nombre in_categorias] in Hn, Hc.
  rewrite validate_name_rules in Hn.
  destruct ((3 <=? length (nombre (campos p)))%nat
            && (length (nombre (campos p)) <=? 80)%nat
            && name_rules (collapse (nombre (campos p)))) eqn:E; [|done].
  injection Hn as Hn. apply andb_prop in E as [_ E]. rewrite Hn in E.
  split; [done|]. split; [done|].
  rewrite validate_categories_spec in Hc.
  destruct ((1 <=? length (categorias (campos p)))%nat
            && (length (categorias (campos p)) <=? 10)%nat
            && forallb (fun c => allowed (c_norm ucd c)) (categorias (campos p)))
    eqn:E'; [|done].
  injection Hc as Hc. apply andb_prop in E' as [E' Hall].
  apply andb_prop in E' as [H1 H10]. apply Nat.leb_le in H1, H10.
  split; [done|]. split; [rewrite <- Hc; apply first_occurrences_NoDup|].
  rewrite <- Hc at 1. apply Forall_forall. intros x Hx.
  apply (proj1 (first_occurrences_elem x _)) in Hx.
  apply list_elem_of_In, in_map_iff in Hx as (c & <- & Hin).
  rewrite forallb_forall in Hall. apply Hall in Hin.
  by apply bool_decide_eq_true in Hin.
Qed.

(** X7. A request that fails leaves the repository as it was, and fails in
    one of the ways of its endpoint; in particular create, replace and
    delete never fail on a pydantic error raised inside the repository. *)
Theorem failed_request_changes_nothing (self : RepoProductos) :
  (forall uuid4 data e self',
      crear_producto ucd uuid4 data self = (Err e, self') ->
      self' = self /\ (e = ValidationError \/ e = DuplicateName))
  /\ (forall id_ data e self',
      reemplazar_producto ucd id_ data self = (Err e, self') ->
      self' = self /\ (e = ValidationError \/ e = NotFound \/ e = DuplicateName))
  /\ (forall id_ data e self',
      actualizar_parcial_producto ucd id_ data self = (Err e, self') ->
      self' = self
      /\ (e = ValidationError \/ e = EmptyPatch \/ e = NotFound
          \/ e = DuplicateName \/ e = Unhandled))
  /\ (forall id_ e self',
      eliminar_producto ucd id_ self = (Err e, self') ->
      self' = self /\ e = NotFound).
Proof.
  split; [|split; [|split]].
  - intros uuid4 data e self'. rewrite crear_producto_eq.
    destruct (ProductoCreate_new ucd data); [|intros [= <- <-]; auto].
    destruct (taken _ None self); [intros [= <- <-]; auto|done].
  - intros id_ data e self'. unfold reemplazar_producto.
    destruct (ProductoCreate_new ucd data) as [prod|] eqn:E;
      [|intros [= <- <-]; auto].
    rewrite actualizar_full_eq by (by eapply ProductoCreate_new_idem).
    destruct (dict_get id_ (_items self)); [|intros [= <- <-]; auto].
    destruct (taken _ (Some id_) self); [intros [= <- <-]; auto|done].
  - intros id_ data e self'. unfold actualizar_parcial_producto.
    destruct (ProductoUpdate_new ucd data) as [payload|];
      [|intros [= <- <-]; auto].
    destruct (nothing_set payload); [intros [= <- <-]; auto|].
    rewrite actualizar_partial_eq.
    destruct (dict_get id_ (_items self)) as [actual|] eqn:Hact;
      [|intros [= <- <-]; auto 6].
    destruct (candidato_de ucd actual payload) as [cand|e'] eqn:Hc.
    2:{ intros [= <- <-]. split; [done|]. unfold candidato_de in Hc.
        repeat (match type of Hc with
                | match ?x with _ => _ end = _ => destruct x
                end; try done); injection Hc as <-; auto 6. }
    destruct (_ && _); [intros [= <- <-]; auto 6|].
    rewrite actualizar_full_eq, Hact by (by eapply candidato_de_validated).
    destruct (taken _ (Some id_) self); [intros [= <- <-]; auto 6|done].
  - intros id_ e self'. unfold eliminar_producto. rewrite borrar_eq.
    destruct (dict_get id_ (_items self)); [done|by intros [= <- <-]].
Qed.

(** X8. A product just created is the one [get] returns under its id, which
    is the identifier [uuid4] returned; when that identifier is not in
    use, the product comes last in the order of the repository and the
    products already stored keep their places. *)
Theorem create_then_get (self self' : RepoProductos) (uuid4 : UUID)
    (data : ProductoCreate_input) (item : ProductoOut) :
  crear_producto ucd uuid4 data self = (Ok item, self') ->
  id item = uuid4
  /\ obtener_producto (id item) self' = (Ok item, self')
  /\ (dict_get uuid4 (_items self) = None ->
      dict_values (_items self') = dict_values (_items self) ++ [item]).
Proof.
  rewrite crear_producto_eq.
  destruct (ProductoCreate_new ucd data) as [prod|]; [|done].
  destruct (taken _ None self); [done|]. intros [= <- <-].
  split; [done|]. rewrite obtener_producto_eq. cbn [stored _items id].
  rewrite dict_get_set. destruct (decide (uuid4 = uuid4)); [|done].
  split; [done|]. intros Hfresh. rewrite dict_set_fresh by done.
  unfold dict_values. by rewrite map_app.
Qed.

(** X9. After a successful delete the id is gone: [get] and a second delete
    both answer [NotFound]; every other record is untouched and the
    remaining products keep their order. *)
Theorem delete_then_get (self self' : RepoProductos) (id_ : UUID) :
  eliminar_producto ucd id_ self = (Ok tt, self') ->
  obtener_producto id_ self' = (Err NotFound, self')
  /\ eliminar_producto ucd id_ self' = (Err NotFound, self')
  /\ (forall j, j <> id_ -> dict_get j (_items self') = dict_get j (_items self))
  /\ dict_values (_items self') `sublist_of` dict_values (_items self).
Proof.
  unfold eliminar_producto. rewrite borrar_eq.
  destruct (dict_get id_ (_items self)) as [actual|]; [|done]. intros [= <-].
  assert (dict_get id_ (_items (removed ucd id_ actual self)) = None) as Hgone.
  { cbn [removed _items]. rewrite dict_get_del. by destruct (decide (id_ = id_)). }
  rewrite obtener_producto_eq, borrar_eq, Hgone.
  split; [done|]. split; [done|]. split.
  - intros j Hj. cbn [removed _items]. rewrite dict_get_del.
    by destruct (decide (j = id_)).
  - apply dict_del_sublist.
Qed.

(** X10. A successful replace keeps the id, stores the returned record under
    it, leaves every other record untouched and keeps the order of the
    repository. *)
Theorem replace_touches_one_record (self self' : RepoProductos) (id_ : UUID)
    (data : ProductoCreate_input) (item : ProductoOut) :
  reemplazar_producto ucd id_ data self = (Ok item, self') ->
  id item = id_
  /\ ProductoCreate_new ucd data = Ok (campos item)
  /\ dict_get id_ (_items self') = Some item
  /\ (forall j, j <> id_ -> dict_get j (_items self') = dict_get j (_items self))
  /\ dict_keys (_items self') = dict_keys (_items self).
Proof.
  unfold reemplazar_producto.
  destruct (ProductoCreate_new ucd data) as [prod|] eqn:E; [|done].
  rewrite actualizar_full_eq by (by eapply ProductoCreate_new_idem).
  destruct (dict_get id_ (_items self)) as [actual|] eqn:Hact; [|done].
  destruct (taken _ (Some id_) self); [done|]. intros [= <- <-].
  cbn [replaced _items id campos]. split; [done|]. split; [done|].
  split; [|split].
  - rewrite dict_get_set. by destruct (decide (id_ = id_)).
  - intros j Hj. rewrite dict_get_set. by destruct (decide (j = id_)).
  - by eapply dict_set_keys.
Qed.

(** X11. In a repository reached from the empty one, replacing a product
    under a name that only differs in case from its own succeeds, and
    replacing it under the folded name of another stored product fails
    with [DuplicateName]. *)
Theorem replace_checks_other_owners (rs : list request) (id_ : UUID) (p : ProductoOut)
    (data : ProductoCreate_input) (prod : ProductoCreate) :
  let self := run ucd rs repo_vacio in
  dict_get id_ (_items self) = Some p ->
  ProductoCreate_new ucd data = Ok prod ->
  (lower ucd (nombre prod) = lower ucd (nombre (campos p)) ->
   exists self', reemplazar_producto ucd id_ data self
                 = (Ok {| id := id_; campos := prod |}, self'))
  /\ (forall j p2, j <> id_ -> dict_get j (_items self) = Some p2 ->
      lower ucd (nombre prod) = lower ucd (nombre (campos p2)) ->
      reemplazar_producto ucd id_ data self = (Err DuplicateName, self)).
Proof.
  intros self Hp Hprod.
  pose proof (run_inv ucd rs repo_vacio (repo_vacio_inv ucd)) as [_ _ _ Hx].
  fold self in Hx. unfold reemplazar_producto. rewrite Hprod.
  rewrite actualizar_full_eq, Hp by (by eapply ProductoCreate_new_idem).
  split.
  - intros Hn. unfold taken. rewrite Hn, (Hx _ _ Hp).
    rewrite bool_decide_eq_true_2 by done. eauto.
  - intros j p2 Hj Hp2 Hn. unfold taken. rewrite Hn, (Hx _ _ Hp2).
    by rewrite bool_decide_eq_false_2.
Qed.

(** X12. After a successful replace that changes the folded name, the old
    name is free again and the new one is taken: a create under the old
    name succeeds, a create under the new name fails with
    [DuplicateName]. *)
Theorem rename_releases_old_name (rs : list request) (id_ : UUID) (p item : ProductoOut)
    (data : ProductoCreate_input) (self' : RepoProductos) :
  dict_get id_ (_items (run ucd rs repo_vacio)) = Some p ->
  reemplazar_producto ucd id_ data (run ucd rs repo_vacio) = (Ok item, self') ->
  lower ucd (nombre (campos item)) <> lower ucd (nombre (campos p)) ->
  forall uuid4 data2 prod2,
    ProductoCreate_new ucd data2 = Ok prod2 ->
    (lower ucd (nombre prod2) = lower ucd (nombre (campos p)) ->
     exists self2, crear_producto ucd uuid4 data2 self'
                   = (Ok {| id := uuid4; campos := prod2 |}, self2))
    /\ (lower ucd (nombre prod2) = lower ucd (nombre (campos item)) ->
        crear_producto ucd uuid4 data2 self' = (Err DuplicateName, self')).
Proof.
  intros Hp. unfold reemplazar_producto.
  destruct (ProductoCreate_new ucd data) as [prod|] eqn:E; [|done].
  rewrite actualizar_full_eq, Hp by (by eapply ProductoCreate_new_idem).
  destruct (taken _ (Some id_) _); [done|]. intros [= <- <-]. cbn [campos].
  intros Hne uuid4 data2 prod2 Hprod2. rewrite crear_producto_eq, Hprod2.
  unfold taken. cbn [replaced _name_to_id]. split; intros ->.
  - rewrite lookup_insert_ne, lookup_delete_eq by done. eauto.
  - by rewrite lookup_insert_eq.
Qed.
End MoreRepoFacts.

(** * Further properties of patching and listing *)

Lemma startswith_spec s p : startswith s p = true <-> exists post, s = p ++ post.
Proof.
  revert s. induction p as [|a p IH]; intros s.
  - destruct s; simpl; (split; [intros _; by eexists|done]).
  - destruct s as [|b s]; simpl.
    + split; [done|]. by intros [post H].
    + rewrite andb_true_iff, N.eqb_eq, IH. split.
      * intros [-> [post ->]]. by exists post.
      * intros [post [= -> ->]]. split; [done|by exists post].
Qed.

(** [needle in hay] holds exactly when [needle] is a run of consecutive
    characters of [hay]. *)
Lemma str_contains_spec hay needle :
  str_contains hay needle = true <-> exists pre post, hay = pre ++ needle ++ post.
Proof.
  induction hay as [|c hay IH].
  - cbn [str_contains]. rewrite orb_false_r, startswith_spec. split.
    + intros [post H]. by exists [], post.
    + intros (pre & post & H). destruct pre; [by exists post|done].
  - cbn [str_contains]. rewrite orb_true_iff, startswith_spec, IH. split.
    + intros [[post H]|(pre & post & ->)]; [by exists [], post|].
      by exists (c :: pre), post.
    + intros (pre & post & H). destruct pre as [|c' pre].
      * left. by exists post.
      * right. injection H as -> ->. by exists pre, post.
Qed.



Section MoreListing.
Context (ucd : unicodedata).


(** X16. Pages that follow one another join up: for [offset >= 0], the page
    of [l1] products at [offset] followed by the page of [l2] products
    at [offset + l1] is the page of [l1 + l2] products at [offset], and
    the three calls report the same total. *)
Theorem consecutive_pages_concatenate (self : RepoProductos) (q categoria : option str)
    (min_precio max_precio : option Decimal) (offset l1 l2 : Z) :
  (0 <= offset)%Z -> (0 <= l1)%Z -> (0 <= l2)%Z ->
  exists a b t,
    listar ucd q categoria min_precio max_precio l1 offset self = (Ok (a, t), self)
    /\ listar ucd q categoria min_precio max_precio l2 (offset + l1) self
       = (Ok (b, t), self)
    /\ listar ucd q categoria min_precio max_precio (l1 + l2) offset self
       = (Ok (a ++ b, t), self).
Proof.
  intros Ho H1 H2. rewrite !listar_eq. cbn zeta. set (F := List.filter _ _).
  rewrite !slice_page by lia. do 3 eexists. split; [done|]. split; [done|].
  do 2 f_equal. f_equal.
  rewrite !Z2Nat.inj_add by lia. rewrite <- take_take_drop, drop_drop. done.
Qed.

Lemma str_contains_refl s : str_contains s s = true.
Proof. apply str_contains_spec. exists [], []. by rewrite app_nil_r. Qed.

(** X18. In a repository reached from the empty one, a search for the exact
    name of a stored product is a valid query text and keeps that
    product: the total is at least 1. *)
Theorem search_by_own_name (rs : list request) (i : UUID) (p : ProductoOut)
    (limit offset : Z) :
  let self := run ucd rs repo_vacio in
  dict_get i (_items self) = Some p ->
  (1 <= length (nombre (campos p)) <= 80)%nat
  /\ p ∈ List.filter (survives ucd (Some (nombre (campos p))) None None None)
           (dict_values (_items self))
  /\ exists its tot,
       listar ucd (Some (nombre (campos p))) None None None limit offset self
       = (Ok (its, tot), self)
       /\ (1 <= tot)%Z.
Proof.
  intros self Hp.
  destruct (run_inv ucd rs repo_vacio (repo_vacio_inv ucd)) as [_ _ Hv _].
  fold self in Hv.
  destruct (ProductoCreate_new_fields ucd _ _ (Hv _ _ Hp)) as (Hn & _ & _).
  cbn [model_dump in_nombre] in Hn.
  assert (strip (nombre (campos p)) = nombre (campos p)
          /\ (3 <= length (nombre (campos p)) <= 80)%nat) as [Hstrip Hlen].
  { rewrite validate_name_rules in Hn.
    destruct ((3 <=? length (nombre (campos p)))%nat
              && (length (nombre (campos p)) <=? 80)%nat
              && name_rules (collapse (nombre (campos p)))) eqn:E; [|done].
    injection Hn as Hn. split.
    - rewrite <- Hn. apply strip_join, split_words.
    - apply andb_prop in E as [E _]. apply andb_prop in E as [E1 E2].
      apply Nat.leb_le in E1, E2. done. }
  assert (p ∈ List.filter (survives ucd (Some (nombre (campos p))) None None None)
            (dict_values (_items self))) as Hin.
  { apply list_elem_of_In, filter_In. split.
    - apply list_elem_of_In. unfold dict_values. apply list_elem_of_fmap.
      exists (i, p). split; [done|]. by apply dict_get_elem.
    - unfold survives. destruct (nombre (campos p)) as [|c n] eqn:En;
        [simpl in Hlen; lia|].
      rewrite Hstrip, str_contains_refl. done. }
  split; [lia|]. split; [done|]. rewrite listar_eq. cbn zeta.
  do 2 eexists. split; [done|].
  destruct (List.filter _ _) as [|? ?]; [by apply elem_of_nil in Hin|].
  simpl. lia.
Qed.
End MoreListing.

Section MorePatch.
Context (ucd : unicodedata).

(** X13. In a repository reached from the empty one with fresh identifiers,
    a patch that sends all three fields is a replace with those fields:
    the same answer and the same repository afterwards. *)
Theorem patch_of_all_fields_is_replace (rs : list request) (id_ : UUID)
    (n : str) (pr : precio_input) (cs : list str) :
  fresh_uuids ucd rs repo_vacio = true ->
  actualizar_parcial_producto ucd id_
    {| upd_nombre := Valor n; upd_precio := Valor pr; upd_categorias := Valor cs |}
    (run ucd rs repo_vacio)
  = reemplazar_producto ucd id_
      {| in_nombre := n; in_precio := pr; in_categorias := cs |}
      (run ucd rs repo_vacio).
Proof.
  intros Hfresh. set (self := run ucd rs repo_vacio).
  pose proof (run_inv ucd rs repo_vacio (repo_vacio_inv ucd)) as Hinv.
  pose proof (run_sound ucd rs repo_vacio (repo_vacio_inv ucd)
                (repo_vacio_sound ucd) Hfresh) as Hs.
  fold self in Hinv, Hs.
  unfold actualizar_parcial_producto, reemplazar_producto,
    ProductoUpdate_new, ProductoCreate_new.
  cbn [upd_nombre upd_precio upd_categorias in_nombre in_precio in_categorias
       campo_validate].
  destruct (validate_name n) as [n'|] eqn:Hn; [|done].
  destruct (validate_price pr) as [p'|] eqn:Hp; [|done].
  destruct (validate_categories ucd cs) as [cs'|] eqn:Hc; [|done].
  cbn [and_then nothing_set nombre_opt precio_opt categorias_opt].
  set (prod := {| nombre := n'; precio := p'; categorias := cs' |}).
  assert (validated ucd prod) as Hv.
  { unfold validated, ProductoCreate_new, model_dump, prod.
    cbn [in_nombre in_precio in_categorias nombre precio categorias].
    by rewrite (validate_name_idem _ _ Hn), (validate_price_idem _ _ Hp),
      (validate_categories_idem _ _ _ Hc). }
  rewrite actualizar_partial_eq, (actualizar_full_eq ucd id_ prod self Hv).
  destruct (dict_get id_ (_items self)) as [actual|] eqn:Hact; [|done].
  unfold candidato_de. cbn [updated nombre_opt precio_opt categorias_opt].
  change (ProductoCreate_new ucd
            {| in_nombre := n'; in_precio := AsDecimal p'; in_categorias := cs' |})
    with (ProductoCreate_new ucd (model_dump prod)).
  rewrite Hv. cbn [nombre prod].
  destruct (bool_decide_reflect (lower ucd n' <> lower ucd (nombre (campos actual))))
    as [Hne|Heq]; cbn [andb]; [|by rewrite actualizar_full_eq, Hact].
  destruct (taken (lower ucd n') None self) eqn:Ht;
    [|by rewrite actualizar_full_eq, Hact].
  assert (taken (lower ucd n') (Some id_) self = true) as ->; [|done].
  unfold taken in *. destruct (_name_to_id self !! lower ucd n') as [found|] eqn:Hf;
    [|done].
  apply negb_true_iff, bool_decide_eq_false. intros ->.
  apply Hs in Hf as (p0 & Hp0 & Hn0). congruence.
Qed.

(** X14. A patch that sends [null] for a field passes the validation of the
    body and, on a stored id, fails on the pydantic error raised when
    the candidate is built, the repository unchanged; a patch that sends
    no field at all is refused before the repository is looked at. *)
Theorem patch_with_null_is_unhandled (self : RepoProductos) :
  (forall id_ data payload actual,
      ProductoUpdate_new ucd data = Ok payload ->
      upd_nombre data = Nulo \/ upd_precio data = Nulo \/ upd_categorias data = Nulo ->
      dict_get id_ (_items self) = Some actual ->
      actualizar_parcial_producto ucd id_ data self = (Err Unhandled, self))
  /\ (forall id_,
      actualizar_parcial_producto ucd id_
        {| upd_nombre := Ausente; upd_precio := Ausente; upd_categorias := Ausente |}
        self = (Err EmptyPatch, self)).
Proof.
  split; [|done].
  intros id_ data payload actual Hpay Hnull Hact.
  unfold actualizar_parcial_producto. rewrite Hpay.
  unfold ProductoUpdate_new in Hpay.
  destruct (campo_validate validate_name (upd_nombre data)) as [c1|] eqn:H1; [|done].
  destruct (campo_validate validate_price (upd_precio data)) as [c2|] eqn:H2; [|done].
  destruct (campo_validate (validate_categories ucd) (upd_categorias data))
    as [c3|] eqn:H3; [|done].
  injection Hpay as <-.
  assert (c1 = Nulo \/ c2 = Nulo \/ c3 = Nulo) as Hn.
  { destruct Hnull as [E|[E|E]]; rewrite E in *; cbn in *;
      [left|right; left|right; right]; congruence. }
  assert (nothing_set {| nombre_opt := c1; precio_opt := c2; categorias_opt := c3 |}
          = false) as ->.
  { unfold nothing_set. cbn. destruct Hn as [-> | [-> | ->]]; try done;
      destruct c1; try done; destruct c2; done. }
  rewrite actualizar_partial_eq, Hact. unfold candidato_de.
  cbn [nombre_opt precio_opt categorias_opt].
  destruct Hn as [-> | [-> | ->]]; cbn [updated]; try done.
  - by destruct (updated (nombre (campos actual)) c1).
  - by destruct (updated (nombre (campos actual)) c1),
      (updated (precio (campos actual)) c2).
Qed.
End MorePatch.

(** * The further properties at work on the two products *)

Lemma model_dump_round_trip_witness :
  exists prod,
    ProductoCreate_new ucd_latin1 (body " Pera " (Dec 75 (-1)) ["Fruta"; "orgánico"])
      = Ok prod
    /\ ProductoCreate_new ucd_latin1 (model_dump prod) = Ok prod.
Proof.
  destruct (ProductoCreate_new ucd_latin1
              (body " Pera " (Dec 75 (-1)) ["Fruta"; "orgánico"]))
    as [prod|] eqn:E; [|by vm_compute in E].
  exists prod. split; [reflexivity|].
  exact (proj1 (model_dump_round_trip ucd_latin1 _ prod 0 E)).
Defined.

(** X6 at work. *)
Lemma stored_products_are_valid_witness :
  exists p,
    dict_get 2%N (_items (run ucd_latin1 dos_altas repo_vacio)) = Some p
    /\ id p = 2%N
    /\ categorias (campos p) = map pystr ["fruta"; "organico"]%string
    /\ NoDup (categorias (campos p)).
Proof.
  destruct (dict_get 2%N (_items (run ucd_latin1 dos_altas repo_vacio)))
    as [p|] eqn:Hp; [|by vm_compute in Hp].
  destruct (stored_products_are_valid ucd_latin1 dos_altas 2 p Hp)
    as (Hid & _ & _ & _ & Hnd & _).
  exists p. split; [reflexivity|]. split; [exact Hid|]. split; [|exact Hnd].
  vm_compute in Hp. injection Hp as <-. reflexivity.
Defined.

(** X7 at work. *)
Lemma failed_request_changes_nothing_witness :
  exists self',
    crear_producto ucd_latin1 5 (body "pera" (Dec 1 0) ["fruta"])
      (dos_productos ucd_latin1) = (Err DuplicateName, self')
    /\ self' = dos_productos ucd_latin1.
Proof.
  destruct (crear_producto ucd_latin1 5 (body "pera" (Dec 1 0) ["fruta"])
              (dos_productos ucd_latin1)) as [[item|e] self'] eqn:E;
    [by vm_compute in E|].
  destruct (proj1 (failed_request_changes_nothing ucd_latin1 (dos_productos ucd_latin1))
              _ _ _ _ E) as [Hself _].
  exists self'. split; [|exact Hself].
  vm_compute in E. injection E as <- _. reflexivity.
Defined.

(** X8 at work. *)
Lemma create_then_get_witness :
  exists item self',
    crear_producto ucd_latin1 3 (body "Uva" (Dec 4 0) ["fruta"]) (dos_productos ucd_latin1)
      = (Ok item, self')
    /\ obtener_producto 3 self' = (Ok item, self')
    /\ nombre (campos item) = pystr "Uva".
Proof.
  destruct (crear_producto ucd_latin1 3 (body "Uva" (Dec 4 0) ["fruta"])
              (dos_productos ucd_latin1)) as [[item|e] self'] eqn:E;
    [|by vm_compute in E].
  destruct (create_then_get ucd_latin1 _ _ _ _ _ E) as (Hid & Hget & _).
  exists item, self'. split; [reflexivity|]. rewrite Hid in Hget.
  split; [exact Hget|]. vm_compute in E. injection E as <- _. reflexivity.
Defined.

(** X9 at work. *)
Lemma delete_then_get_witness :
  exists self',
    eliminar_producto ucd_latin1 2 (dos_productos ucd_latin1) = (Ok tt, self')
    /\ obtener_producto 2 self' = (Err NotFound, self')
    /\ eliminar_producto ucd_latin1 2 self' = (Err NotFound, self').
Proof.
  destruct (eliminar_producto ucd_latin1 2 (dos_productos ucd_latin1))
    as [[[]|e] self'] eqn:E; [|by vm_compute in E].
  destruct (delete_then_get ucd_latin1 _ _ _ E) as (Hget & Hdel & _).
  exists self'. split; [reflexivity|]. split; [exact Hget|exact Hdel].
Defined.

(** X10 at work. *)
Lemma replace_touches_one_record_witness :
  exists item self',
    reemplazar_producto ucd_latin1 1 (body "Manzana Verde" (Dec 11 0) ["fruta"])
      (dos_productos ucd_latin1) = (Ok item, self')
    /\ id item = 1%N
    /\ dict_get 2%N (_items self') = dict_get 2%N (_items (dos_productos ucd_latin1))
    /\ dict_keys (_items self') = [1%N; 2%N].
Proof.
  destruct (reemplazar_producto ucd_latin1 1 (body "Manzana Verde" (Dec 11 0) ["fruta"])
              (dos_productos ucd_latin1)) as [[item|e] self'] eqn:E;
    [|by vm_compute in E].
  destruct (replace_touches_one_record ucd_latin1 _ _ _ _ _ E)
    as (Hid & _ & _ & Hother & Hkeys).
  exists item, self'. split; [reflexivity|]. split; [exact Hid|].
  split; [apply Hother; discriminate|]. rewrite Hkeys. reflexivity.
Defined.

(** X11 at work. *)
Lemma replace_checks_other_owners_witness :
  exists p prod self',
    dict_get 1%N (_items (run ucd_latin1 dos_altas repo_vacio)) = Some p
    /\ ProductoCreate_new ucd_latin1 (body "MANZANA ROJA" (Dec 9 0) ["fruta"]) = Ok prod
    /\ lower ucd_latin1 (nombre prod) = lower ucd_latin1 (nombre (campos p))
    /\ reemplazar_producto ucd_latin1 1 (body "MANZANA ROJA" (Dec 9 0) ["fruta"])
         (run ucd_latin1 dos_altas repo_vacio)
       = (Ok {| id := 1; campos := prod |}, self').
Proof.
  destruct (dict_get 1%N (_items (run ucd_latin1 dos_altas repo_vacio)))
    as [p|] eqn:Hp; [|by vm_compute in Hp].
  destruct (ProductoCreate_new ucd_latin1 (body "MANZANA ROJA" (Dec 9 0) ["fruta"]))
    as [prod|] eqn:Hprod; [|by vm_compute in Hprod].
  assert (lower ucd_latin1 (nombre prod) = lower ucd_latin1 (nombre (campos p))) as Hn.
  { vm_compute in Hp, Hprod. injection Hp as <-. injection Hprod as <-. reflexivity. }
  destruct (proj1 (replace_checks_other_owners ucd_latin1 dos_altas 1 p _ prod Hp Hprod) Hn)
    as [self' Hput].
  exists p, prod, self'. split; [reflexivity|]. split; [reflexivity|].
  split; [exact Hn|exact Hput].
Defined.

(** X12 at work. *)
Lemma rename_releases_old_name_witness :
  exists p item self' prod2 self2,
    dict_get 1%N (_items (run ucd_latin1 dos_altas repo_vacio)) = Some p
    /\ reemplazar_producto ucd_latin1 1 (body "Manzana Verde" (Dec 11 0) ["fruta"])
         (run ucd_latin1 dos_altas repo_vacio) = (Ok item, self')
    /\ lower ucd_latin1 (nombre (campos item)) <> lower ucd_latin1 (nombre (campos p))
    /\ ProductoCreate_new ucd_latin1 (body "manzana roja" (Dec 3 0) ["fruta"]) = Ok prod2
    /\ crear_producto ucd_latin1 3 (body "manzana roja" (Dec 3 0) ["fruta"]) self'
       = (Ok {| id := 3; campos := prod2 |}, self2).
Proof.
  destruct (dict_get 1%N (_items (run ucd_latin1 dos_altas repo_vacio)))
    as [p|] eqn:Hp; [|by vm_compute in Hp].
  destruct (reemplazar_producto ucd_latin1 1 (body "Manzana Verde" (Dec 11 0) ["fruta"])
              (run ucd_latin1 dos_altas repo_vacio)) as [[item|e] self'] eqn:E;
    [|by vm_compute in E].
  destruct (ProductoCreate_new ucd_latin1 (body "manzana roja" (Dec 3 0) ["fruta"]))
    as [prod2|] eqn:Hprod2; [|by vm_compute in Hprod2].
  assert (lower ucd_latin1 (nombre (campos item))
          <> lower ucd_latin1 (nombre (campos p))) as Hne.
  { pose proof Hp as Hp'. pose proof E as E'. vm_compute in Hp', E'.
    injection Hp' as <-. injection E' as <- _. by vm_compute. }
  assert (lower ucd_latin1 (nombre prod2) = lower ucd_latin1 (nombre (campos p))) as Hn.
  { pose proof Hp as Hp'. pose proof Hprod2 as H2. vm_compute in Hp', H2.
    injection Hp' as <-. injection H2 as <-. reflexivity. }
  destruct (proj1 (rename_releases_old_name ucd_latin1 dos_altas 1 p item _ self'
                     Hp E Hne 3 _ prod2 Hprod2) Hn) as [self2 Hnew].
  exists p, item, self', prod2, self2. split; [reflexivity|]. split; [reflexivity|].
  split; [exact Hne|]. split; [reflexivity|exact Hnew].
Defined.

(** X13 at work. *)
Lemma patch_of_all_fields_is_replace_witness :
  fresh_uuids ucd_latin1 dos_altas repo_vacio = true
  /\ actualizar_parcial_producto ucd_latin1 2
       {| upd_nombre := Valor (pystr "Pera de agua");
          upd_precio := Valor (AsDecimal (Dec 8 0));
          upd_categorias := Valor [pystr "fruta"] |}
       (run ucd_latin1 dos_altas repo_vacio)
     = reemplazar_producto ucd_latin1 2
         {| in_nombre := pystr "Pera de agua"; in_precio := AsDecimal (Dec 8 0);
            in_categorias := [pystr "fruta"] |}
         (run ucd_latin1 dos_altas repo_vacio).
Proof.
  assert (fresh_uuids ucd_latin1 dos_altas repo_vacio = true) as Hf by (by vm_compute).
  split; [exact Hf|].
  exact (patch_of_all_fields_is_replace ucd_latin1 dos_altas 2 _ _ _ Hf).
Defined.

(** X14 at work. *)
Lemma patch_with_null_is_unhandled_witness :
  exists payload actual,
    ProductoUpdate_new ucd_latin1
      {| upd_nombre := Nulo; upd_precio := Valor (AsDecimal (Dec 5 0));
         upd_categorias := Ausente |} = Ok payload
    /\ dict_get 1%N (_items (dos_productos ucd_latin1)) = Some actual
    /\ actualizar_parcial_producto ucd_latin1 1
         {| upd_nombre := Nulo; upd_precio := Valor (AsDecimal (Dec 5 0));
            upd_categorias := Ausente |} (dos_productos ucd_latin1)
       = (Err Unhandled, dos_productos ucd_latin1).
Proof.
  destruct (ProductoUpdate_new ucd_latin1
              {| upd_nombre := Nulo; upd_precio := Valor (AsDecimal (Dec 5 0));
                 upd_categorias := Ausente |}) as [payload|] eqn:Hpay;
    [|by vm_compute in Hpay].
  destruct (dict_get 1%N (_items (dos_productos ucd_latin1))) as [actual|] eqn:Hact;
    [|by vm_compute in Hact].
  exists payload, actual. split; [reflexivity|]. split; [reflexivity|].
  exact (proj1 (patch_with_null_is_unhandled ucd_latin1 (dos_productos ucd_latin1))
           1%N _ payload actual Hpay (or_introl eq_refl) Hact).
Defined.


(** X16 at work. *)
Lemma consecutive_pages_concatenate_witness :
  ((0 <= 0)%Z /\ (0 <= 1)%Z)
  /\ exists a b t,
       listar ucd_latin1 None None None None 1 0 (dos_productos ucd_latin1)
         = (Ok (a, t), dos_productos ucd_latin1)
       /\ listar ucd_latin1 None None None None 1 (0 + 1) (dos_productos ucd_latin1)
          = (Ok (b, t), dos_productos ucd_latin1)
       /\ listar ucd_latin1 None None None None (1 + 1) 0 (dos_productos ucd_latin1)
          = (Ok (a ++ b, t), dos_productos ucd_latin1).
Proof.
  assert ((0 <= 0)%Z) as H0 by lia. assert ((0 <= 1)%Z) as H1 by lia.
  split; [done|].
  exact (consecutive_pages_concatenate ucd_latin1 (dos_productos ucd_latin1)
           None None None None 0 1 1 H0 H1 H1).
Defined.

(** X18 at work. *)
Lemma search_by_own_name_witness :
  exists p its tot,
    dict_get 2%N (_items (run ucd_latin1 dos_altas repo_vacio)) = Some p
    /\ listar ucd_latin1 (Some (nombre (campos p))) None None None 10 0
         (run ucd_latin1 dos_altas repo_vacio)
       = (Ok (its, tot), run ucd_latin1 dos_altas repo_vacio)
    /\ (1 <= tot)%Z.
Proof.
  destruct (dict_get 2%N (_items (run ucd_latin1 dos_altas repo_vacio)))
    as [p|] eqn:Hp; [|by vm_compute in Hp].
  destruct (search_by_own_name ucd_latin1 dos_altas 2 p 10 0 Hp)
    as (_ & _ & its & tot & Hl & Ht).
  exists p, its, tot. split; [reflexivity|]. split; [exact Hl|exact Ht].
Defined.
